(** * A shallow embedding of [llm_server.py]

    The program is a line-oriented worker: it reads one JSON command per
    line of standard input, drives a language-model backend and answers
    with one JSON object per command.  This file embeds

    - Python's [str] operations the program relies on ([in], [split],
      [strip]) over sequences of Unicode code points,
    - the JSON values a request is made of, with Python's truthiness,
      equality against a string and [dict.get],
    - [LLMServer.load_model] and [LLMServer.generate] as functions of the
      server object and of the answers of the backend (tokenizer, model),
      recording every backend call they make,
    - the command loop of [main],

    and proves the properties of the conversation builder, the response
    extractor and the command protocol.

    What is outside the program is kept outside the model.  The tokenizer
    and the model are a record of answers, one per call the program makes,
    each of which returns or fails; [json.loads], which returns or raises,
    [repr], and the way reading standard input ends (end of file, or a
    read that raises) are fields of a record of the Python runtime.  Logging, which goes to a file and to
    standard error, the command line and the optional download of the
    model files are left out.  Exceptions are those the handlers of the
    program catch, the subclasses of [Exception]. *)

From Stdlib Require Import String Ascii.
From Stdlib Require Import List Arith ZArith NArith Lia Bool.
From Stdlib Require Import Floats.SpecFloat.
From Equations Require Import Equations.
Import ListNotations.

Local Set Warnings "-register-all".

Local Open Scope list_scope.

(* ===================================================================== *)
(** ** Python strings *)
(* ===================================================================== *)

(** A Python [str] is a sequence of Unicode code points. *)
Definition pychar := N.
Definition pystr := list pychar.

(** A literal of the source, read as code points. *)
Definition lit (s : string) : pystr := map N_of_ascii (list_ascii_of_string s).

(** The line feed, written ["\n"] in the source. *)
Definition NL : pychar := 10%N.

Fixpoint str_eqb (s t : pystr) : bool :=
  match s, t with
  | [], [] => true
  | a :: s', b :: t' => N.eqb a b && str_eqb s' t'
  | _, _ => false
  end.

(** [t.startswith(p)] *)
Fixpoint startswith (p t : pystr) : bool :=
  match p, t with
  | [], _ => true
  | a :: p', b :: t' => N.eqb a b && startswith p' t'
  | _ :: _, [] => false
  end.

(** [t.partition(sep)]: the text before and after the first occurrence of
    [sep], scanning from the left; [None] when [sep] does not occur. *)
Fixpoint py_partition (sep t : pystr) {struct t} : option (pystr * pystr) :=
  if startswith sep t then Some ([], skipn (length sep) t)
  else match t with
       | [] => None
       | c :: t' =>
           match py_partition sep t' with
           | Some (a, b) => Some (c :: a, b)
           | None => None
           end
       end.

(** [sep in t] *)
Definition py_in (sep t : pystr) : bool :=
  match py_partition sep t with Some _ => true | None => false end.

Lemma startswith_iff p t : startswith p t = true <-> exists q, t = p ++ q.
Proof.
  revert t; induction p as [|a p IH]; intros t; simpl.
  - split; [intros _; now exists t | reflexivity].
  - destruct t as [|b t]; simpl.
    + split; [discriminate | intros [q Hq]; discriminate].
    + rewrite andb_true_iff, N.eqb_eq, IH. split.
      * intros [-> [q ->]]. now exists q.
      * intros [q Hq]. injection Hq as -> ->. split; [reflexivity | now exists q].
Qed.

Lemma py_partition_shorter sep t a b :
  sep <> [] -> py_partition sep t = Some (a, b) -> length b < length t.
Proof.
  intros Hsep. revert a b; induction t as [|c t IH]; intros a b; simpl.
  - destruct (startswith sep []) eqn:E; [|discriminate].
    destruct sep; [congruence | discriminate].
  - destruct (startswith sep (c :: t)) eqn:E.
    + intros [= <- <-]. destruct sep as [|s sep]; [congruence|].
      simpl. pose proof (length_skipn (length sep) t). lia.
    + destruct (py_partition sep t) as [[a' b']|]; [|discriminate].
      intros [= <- <-]. specialize (IH _ _ eq_refl). lia.
Qed.

(** [t.split(sep)]: the pieces of [t] between the occurrences of [sep],
    found from the left and never overlapping.  Python raises [ValueError]
    for an empty separator; the program only splits by two non-empty
    literals, and the empty case is given the whole text here. *)
Equations? py_split (sep t : pystr) : list pystr by wf (length t) lt :=
  py_split [] t := [t];
  py_split (c :: s) t with Logic.inspect (py_partition (c :: s) t) => {
    | exist _ None _ := [t];
    | exist _ (Some (a, b)) e := a :: py_split (c :: s) b }.
Proof.
  eapply py_partition_shorter; [|exact e]. discriminate.
Qed.

(** [str.isspace] on one character: the code points CPython's
    [_PyUnicode_IsWhitespace] accepts. *)
Definition isspace (c : pychar) : bool :=
  ((9 <=? c) && (c <=? 13) || (28 <=? c) && (c <=? 32)
   || (c =? 133) || (c =? 160) || (c =? 5760)
   || (8192 <=? c) && (c <=? 8202)
   || (c =? 8232) || (c =? 8233) || (c =? 8239) || (c =? 8287)
   || (c =? 12288))%N.

Fixpoint lstrip (t : pystr) : pystr :=
  match t with
  | c :: t' => if isspace c then lstrip t' else t
  | [] => []
  end.

Definition rstrip (t : pystr) : pystr := rev (lstrip (rev t)).

(** [t.strip()] *)
Definition py_strip (t : pystr) : pystr := rstrip (lstrip t).

(** [l[-1]] on a list of strings that is never empty. *)
Definition py_last (l : list pystr) : pystr := last l [].

(* ===================================================================== *)
(** ** The response extractor (source lines 116-123) *)
(* ===================================================================== *)

Definition marker : pystr := lit "assistant".
Definition marker_nl : pystr := lit "assistant" ++ [NL].

Definition extract_response (response : pystr) : pystr :=
  if py_in marker_nl response then
    py_strip (py_last (py_split marker_nl response))
  else if py_in marker response then
    py_strip (py_last (py_split marker response))
  else response.

(* ===================================================================== *)
(** ** Occurrences of a substring *)
(* ===================================================================== *)

(** The words of the specification: [sep] occurs in [t], and [post] is
    everything after the last occurrence of [sep] in [t]. *)
Definition occurs (sep t : pystr) : Prop :=
  exists pre post, t = pre ++ sep ++ post.

Definition last_occurrence (sep t pre post : pystr) : Prop :=
  t = pre ++ sep ++ post /\
  forall pre' post', t = pre' ++ sep ++ post' -> length pre' <= length pre.

(** A separator has no border when no proper suffix of it is also a prefix:
    two occurrences of such a separator never overlap. *)
Definition border_free (sep : pystr) : Prop :=
  forall k, 0 < k < length sep -> skipn k sep <> firstn (length sep - k) sep.

Definition border_freeb (sep : pystr) : bool :=
  forallb (fun k => negb (str_eqb (skipn k sep) (firstn (length sep - k) sep)))
          (seq 1 (length sep - 1)).

Lemma str_eqb_eq s t : str_eqb s t = true <-> s = t.
Proof.
  revert t; induction s as [|a s IH]; destruct t as [|b t]; simpl;
    try (split; [discriminate | congruence]); [tauto |].
  rewrite andb_true_iff, N.eqb_eq, IH. split.
  - now intros [-> ->].
  - now intros [= -> ->].
Qed.

Lemma border_freeb_sound sep : border_freeb sep = true -> border_free sep.
Proof.
  unfold border_freeb, border_free. rewrite forallb_forall.
  intros H k Hk E. specialize (H k).
  rewrite in_seq in H. rewrite (proj2 (str_eqb_eq _ _) E) in H.
  assert (false = true) by (apply H; lia). discriminate.
Qed.

Lemma app_eq_app_le (x y u v : pystr) :
  x ++ y = u ++ v -> length x <= length u ->
  exists w, u = x ++ w /\ y = w ++ v.
Proof.
  revert u; induction x as [|a x IH]; intros u E L; simpl in *.
  - exists u. now split.
  - destruct u as [|b u]; simpl in *; [lia|].
    injection E as -> E. destruct (IH u E) as [w [-> ->]]; [lia|].
    now exists w.
Qed.

Lemma app_eq_same_length (x y u v : pystr) :
  x ++ y = u ++ v -> length x = length u -> x = u /\ y = v.
Proof.
  intros E L. destruct (app_eq_app_le _ _ _ _ E) as [w [Hu Hy]]; [lia|].
  assert (w = []) as ->.
  { apply length_zero_iff_nil. rewrite Hu, length_app in L. lia. }
  rewrite app_nil_r in Hu. now subst.
Qed.

Lemma no_overlap sep t p1 q1 p2 q2 :
  border_free sep ->
  t = p1 ++ sep ++ q1 -> t = p2 ++ sep ++ q2 ->
  length p1 < length p2 -> length p1 + length sep <= length p2.
Proof.
  intros BF -> E L.
  destruct (le_lt_dec (length p1 + length sep) (length p2)) as [|Hlt]; [assumption|].
  exfalso.
  destruct (app_eq_app_le _ _ _ _ E) as [w [-> Hw]]; [lia|].
  rewrite length_app in L, Hlt.
  apply (BF (length w)); [lia|].
  (* sep ++ q1 = w ++ sep ++ q2, with 0 < |w| < |sep| *)
  destruct (app_eq_app_le w (sep ++ q2) sep q1 (eq_sym Hw)) as [z [Hs Hz]]; [lia|].
  (* sep = w ++ z, and sep ++ q2 = z ++ q1 *)
  assert (Lz : length z = length sep - length w).
  { rewrite Hs, length_app. lia. }
  assert (S1 : skipn (length w) sep = z).
  { rewrite Hs, skipn_app, skipn_all, Nat.sub_diag. reflexivity. }
  rewrite S1, <- Lz.
  destruct (app_eq_app_le z q1 sep q2 (eq_sym Hz)) as [y [Hs' _]].
  { rewrite Lz. lia. }
  rewrite Hs', firstn_app, firstn_all, Nat.sub_diag.
  simpl. now rewrite app_nil_r.
Qed.

Lemma py_partition_some sep t a b :
  py_partition sep t = Some (a, b) ->
  t = a ++ sep ++ b /\
  forall pre' post', t = pre' ++ sep ++ post' -> length a <= length pre'.
Proof.
  revert a b; induction t as [|c t IH]; intros a b; simpl.
  - destruct (startswith sep []) eqn:E; [|discriminate].
    intros [= <- <-]. apply startswith_iff in E as [q Hq].
    symmetry in Hq. apply app_eq_nil in Hq as [-> ->].
    split; [reflexivity | simpl; lia].
  - destruct (startswith sep (c :: t)) eqn:E.
    + intros [= <- <-]. apply startswith_iff in E as [q Hq].
      rewrite Hq at 1 2. rewrite skipn_app, skipn_all, Nat.sub_diag. simpl.
      split; [reflexivity | lia].
    + destruct (py_partition sep t) as [[a' b']|]; [|discriminate].
      intros [= <- <-]. destruct (IH _ _ eq_refl) as [Ht Hmin].
      split; [simpl; now f_equal|].
      intros [|c' pre'] post' E'; simpl in E'.
      * assert (startswith sep (c :: t) = true) as E''
          by (apply startswith_iff; now exists post').
        congruence.
      * injection E' as _ E'. simpl. specialize (Hmin _ _ E'). lia.
Qed.

Lemma py_partition_none sep t : py_partition sep t = None -> ~ occurs sep t.
Proof.
  induction t as [|c t IH]; simpl.
  - destruct (startswith sep []) eqn:E; [discriminate|].
    intros _ (pre & post & H). symmetry in H.
    apply app_eq_nil in H as [_ H]. apply app_eq_nil in H as [-> _].
    discriminate.
  - destruct (startswith sep (c :: t)) eqn:E; [discriminate|].
    destruct (py_partition sep t) as [[a' b']|]; [discriminate|].
    intros _ ([|c' pre] & post & H); simpl in H.
    + assert (startswith sep (c :: t) = true) as E'
        by (apply startswith_iff; now exists post).
      congruence.
    + injection H as _ H. apply IH; [reflexivity|]. now exists pre, post.
Qed.

Lemma py_in_occurs sep t : py_in sep t = true <-> occurs sep t.
Proof.
  unfold py_in. destruct (py_partition sep t) as [[a b]|] eqn:E.
  - split; [intros _ | reflexivity].
    exists a, b. apply (py_partition_some _ _ _ _ E).
  - split; [discriminate|]. intros H. now apply py_partition_none in E.
Qed.

Lemma py_split_not_nil sep t : py_split sep t <> [].
Proof. funelim (py_split sep t); simp py_split; discriminate. Qed.

Lemma py_split_no_occurrence sep t : ~ occurs sep t -> py_split sep t = [t].
Proof.
  funelim (py_split sep t); intros Hno; try reflexivity.
  exfalso. apply Hno. exists a, b. apply (py_partition_some _ _ _ _ e).
Qed.

Lemma py_last_cons a l : l <> [] -> py_last (a :: l) = py_last l.
Proof. destruct l; [congruence | reflexivity]. Qed.

(** The last piece of the split is what follows the last occurrence. *)
Lemma py_split_last sep t :
  border_free sep -> sep <> [] ->
  forall pre post, last_occurrence sep t pre post ->
  py_last (py_split sep t) = post.
Proof.
  intros BF NE. funelim (py_split sep t); intros pre post [Et Hlast];
    [ congruence | | exfalso; apply (py_partition_none _ _ e);
                     now exists pre, post ].
  - match goal with IH : border_free _ -> _ |- _ => rename IH into IHb end.
    destruct (py_partition_some _ _ _ _ e) as [Ea Hfirst].
    rewrite py_last_cons by apply py_split_not_nil.
    pose proof (Hfirst _ _ Et) as Hle.
    destruct (Nat.eq_dec (length a) (length pre)) as [Heq|Hne].
    + (* the first occurrence is the last one *)
      assert (a = pre /\ (c :: s) ++ b = (c :: s) ++ post) as [-> Eb].
      { apply app_eq_same_length; [congruence | assumption]. }
      apply app_inv_head in Eb. subst post.
      rewrite py_split_no_occurrence; [reflexivity|].
      intros (x & y & Hb).
      assert (length (pre ++ (c :: s) ++ x) <= length pre) as Habs.
      { apply (Hlast _ y). rewrite Ea, Hb.
        repeat rewrite <- app_assoc. reflexivity. }
      rewrite !length_app in Habs. simpl in Habs. lia.
    + (* a later occurrence lies wholly inside [b] *)
      assert (length a + length (c :: s) <= length pre) as Hfar
        by (eapply no_overlap; eauto; lia).
      assert (Et' : (a ++ c :: s) ++ b = pre ++ (c :: s) ++ post).
      { rewrite <- app_assoc. congruence. }
      destruct (app_eq_app_le _ _ _ _ Et') as [w [Hpre Hb]];
        [now rewrite length_app|].
      apply (IHb BF NE w post). split; [exact Hb|].
      intros pre' post' Hb'.
      assert (length ((a ++ c :: s) ++ pre') <= length pre) as Hl.
      { apply (Hlast _ post'). rewrite Ea, Hb'.
        repeat rewrite <- app_assoc. reflexivity. }
      rewrite Hpre in Hl. rewrite !length_app in Hl. lia.
Qed.

Lemma occurs_last_occurrence sep t :
  occurs sep t -> exists pre post, last_occurrence sep t pre post.
Proof.
  induction t as [|c t IH]; intros (pre & post & E).
  - symmetry in E. apply app_eq_nil in E as [-> E].
    apply app_eq_nil in E as [-> ->].
    exists [], []. split; [reflexivity|].
    intros pre' post' E'. symmetry in E'. apply app_eq_nil in E' as [-> _].
    simpl; lia.
  - destruct (py_in sep t) eqn:Hin.
    + apply py_in_occurs in Hin. destruct (IH Hin) as (p & q & Ep & Hp).
      exists (c :: p), q. split; [simpl; now f_equal|].
      intros [|c' pre'] post' E'; simpl in *; [lia|].
      injection E' as _ E'. specialize (Hp _ _ E'). lia.
    + assert (Hno : ~ occurs sep t).
      { intros Ho. apply py_in_occurs in Ho. congruence. }
      destruct pre as [|c' pre]; simpl in E.
      * exists [], post. split; [exact E|].
        intros [|c' pre'] post' E'; simpl in *; [lia|].
        injection E' as _ E'. exfalso. apply Hno. now exists pre', post'.
      * injection E as _ E. exfalso. apply Hno. now exists pre, post.
Qed.

(* ===================================================================== *)
(** ** What [strip] removes *)
(* ===================================================================== *)

Definition whitespace (u : pystr) : Prop := Forall (fun c => isspace c = true) u.

Lemma lstrip_decompose t : exists l, t = l ++ lstrip t /\ whitespace l.
Proof.
  induction t as [|c t (l & E & W)]; simpl.
  - exists []. split; [reflexivity | constructor].
  - destruct (isspace c) eqn:Hc.
    + exists (c :: l). split; [simpl; now f_equal | now constructor].
    + exists []. split; [reflexivity | constructor].
Qed.

Lemma lstrip_head t c u : lstrip t = c :: u -> isspace c = false.
Proof.
  induction t as [|d t IH]; simpl; [discriminate|].
  destruct (isspace d) eqn:Hd; [exact IH|]. now intros [= <- _].
Qed.

Lemma rstrip_decompose t : exists r, t = rstrip t ++ r /\ whitespace r.
Proof.
  destruct (lstrip_decompose (rev t)) as (l & E & W).
  exists (rev l). split; [|now apply Forall_rev].
  unfold rstrip. rewrite <- rev_app_distr, <- E. now rewrite rev_involutive.
Qed.

Lemma rstrip_last t u c : rstrip t = u ++ [c] -> isspace c = false.
Proof.
  unfold rstrip. intros E. apply (f_equal (@rev pychar)) in E.
  rewrite rev_involutive, rev_app_distr in E. simpl in E.
  now apply lstrip_head in E.
Qed.

(** [strip] returns its argument without a run of whitespace at either
    end, and what is left neither starts nor ends with whitespace. *)
Lemma py_strip_spec t :
  (exists l r, t = l ++ py_strip t ++ r /\ whitespace l /\ whitespace r) /\
  (forall c u, py_strip t = c :: u -> isspace c = false) /\
  (forall u c, py_strip t = u ++ [c] -> isspace c = false).
Proof.
  unfold py_strip. split; [|split].
  - destruct (lstrip_decompose t) as (l & El & Wl).
    destruct (rstrip_decompose (lstrip t)) as (r & Er & Wr).
    exists l, r. repeat split; try assumption. now rewrite <- Er.
  - intros c u E.
    destruct (rstrip_decompose (lstrip t)) as (r & Er & _).
    rewrite E in Er. simpl in Er. now apply lstrip_head in Er.
  - intros u c. apply rstrip_last.
Qed.

(* ===================================================================== *)
(** ** The extractor meets its description *)
(* ===================================================================== *)

Lemma marker_nl_border_free : border_free marker_nl.
Proof. apply border_freeb_sound. vm_compute. reflexivity. Qed.

Lemma marker_border_free : border_free marker.
Proof. apply border_freeb_sound. vm_compute. reflexivity. Qed.

Lemma occurs_marker_nl_marker t : occurs marker_nl t -> occurs marker t.
Proof.
  intros (pre & post & E). exists pre, (NL :: post).
  rewrite E. unfold marker_nl. now rewrite <- app_assoc.
Qed.

Lemma not_py_in sep t : ~ occurs sep t -> py_in sep t = false.
Proof.
  intros H. destruct (py_in sep t) eqn:E; [|reflexivity].
  now apply py_in_occurs in E.
Qed.

Lemma extract_after_marker_nl t pre post :
  last_occurrence marker_nl t pre post -> extract_response t = py_strip post.
Proof.
  intros H. unfold extract_response.
  assert (py_in marker_nl t = true) as ->.
  { apply py_in_occurs. exists pre, post. apply H. }
  f_equal. apply (py_split_last _ _ marker_nl_border_free) with (pre := pre);
    [discriminate | exact H].
Qed.

Lemma extract_after_marker t pre post :
  ~ occurs marker_nl t ->
  last_occurrence marker t pre post -> extract_response t = py_strip post.
Proof.
  intros Hno H. unfold extract_response. rewrite (not_py_in _ _ Hno).
  assert (py_in marker t = true) as ->.
  { apply py_in_occurs. exists pre, post. apply H. }
  f_equal. apply (py_split_last _ _ marker_border_free) with (pre := pre);
    [discriminate | exact H].
Qed.

Lemma extract_no_marker t : ~ occurs marker t -> extract_response t = t.
Proof.
  intros Hno. unfold extract_response.
  rewrite (not_py_in _ _ Hno), not_py_in; [reflexivity|].
  intros H. now apply Hno, occurs_marker_nl_marker.
Qed.

Lemma hello_last_occurrence p :
  last_occurrence marker_nl (p ++ marker_nl ++ lit "Hello there")
                  p (lit "Hello there").
Proof.
  split; [reflexivity|]. intros pre' post' E.
  destruct (le_lt_dec (length pre') (length p)) as [|Hlt]; [assumption|].
  exfalso.
  pose proof (no_overlap _ _ _ _ _ _ marker_nl_border_free eq_refl E Hlt)
    as Hfar.
  rewrite app_assoc in E.
  destruct (app_eq_app_le _ _ _ _ E) as [w [_ Hw]];
    [now rewrite length_app|].
  assert (py_in marker_nl (lit "Hello there") = true) as Habs
    by (apply py_in_occurs; now exists w, post').
  vm_compute in Habs. discriminate.
Qed.

(* ===================================================================== *)
(** ** Python values and exceptions *)
(* ===================================================================== *)

(** The values [json.loads] produces, which are also the values the
    program builds its responses from. *)
Inductive pyval : Type :=
| PNone
| PBool (b : bool)
| PInt (z : Z)
| PFloat (f : spec_float)
| PStr (s : pystr)
| PList (l : list pyval)
| PDict (d : list (pystr * pyval)).

(** [type(v).__name__], as Python's error messages quote it. *)
Definition type_name (v : pyval) : pystr :=
  match v with
  | PNone => lit "NoneType"
  | PBool _ => lit "bool"
  | PInt _ => lit "int"
  | PFloat _ => lit "float"
  | PStr _ => lit "str"
  | PList _ => lit "list"
  | PDict _ => lit "dict"
  end.

(** [bool(v)]: the test of [if v:]. *)
Definition py_truthy (v : pyval) : bool :=
  match v with
  | PNone => false
  | PBool b => b
  | PInt z => negb (z =? 0)%Z
  | PFloat f => negb (SFeqb f (S754_zero false))
  | PStr s => match s with [] => false | _ => true end
  | PList l => match l with [] => false | _ => true end
  | PDict d => match d with [] => false | _ => true end
  end.

(** [v == s] for a string literal [s]. *)
Definition py_eq_str (v : pyval) (s : pystr) : bool :=
  match v with PStr u => str_eqb u s | _ => false end.

(** The classes of exception met in this file.  [json.loads] raises
    [JSONDecodeError] on text that is not JSON, and also [RecursionError]
    (nesting too deep) or a plain [ValueError] (an integer with too many
    digits); reading standard input raises [UnicodeDecodeError] on bytes
    it cannot decode; a failure of the tokenizer or of the model is a
    [BackendError]. *)
Inductive exn_class :=
| JSONDecodeError | TypeError | AttributeError | BackendError
| ValueError | RecursionError | UnicodeDecodeError.

(** An exception: its class and [str(e)]. *)
Record exn := Exn { exn_cls : exn_class; exn_msg : pystr }.

Inductive result (A : Type) : Type :=
| Ok (a : A)
| Raise (e : exn).
Arguments Ok {A} a.
Arguments Raise {A} e.

(** What the Python runtime provides and this file does not spell out:
    [repr] of a value that is not a string; [json.loads], which returns a
    value or raises; and how the iteration over [sys.stdin] ends once the
    lines it delivered are used up: at the end of the file ([None]), or
    with the exception of a read that fails ([Some e]), as on bytes that
    cannot be decoded. *)
Record python := Python {
  py_repr : pyval -> pystr;
  json_loads : pystr -> result pyval;
  stdin_end : option exn
}.

(** [d.get(key, default)] on the items of a dictionary. *)
Fixpoint dict_get (d : list (pystr * pyval)) (key : pystr) (default : pyval) : pyval :=
  match d with
  | [] => default
  | (k, v) :: d' => if str_eqb k key then v else dict_get d' key default
  end.

(** [request.get(key, default)]: only a dictionary has the method. *)
Definition py_get (request : pyval) (key : pystr) (default : pyval) : result pyval :=
  match request with
  | PDict d => Ok (dict_get d key default)
  | _ => Raise (Exn AttributeError
                    (lit "'" ++ type_name request ++ lit "' object has no attribute 'get'"))
  end.

(** [temperature > 0] *)
Definition py_gt_zero (v : pyval) : result bool :=
  match v with
  | PBool b => Ok b
  | PInt z => Ok (0 <? z)%Z
  | PFloat f => Ok (SFltb (S754_zero false) f)
  | _ => Raise (Exn TypeError
                    (lit "'>' not supported between instances of '" ++ type_name v
                         ++ lit "' and 'int'"))
  end.

(** The elements [for ... in v] visits. *)
Definition py_iter (v : pyval) : result (list pyval) :=
  match v with
  | PList l => Ok l
  | PStr s => Ok (map (fun c => PStr [c]) s)
  | PDict d => Ok (map (fun kv => PStr (fst kv)) d)
  | _ => Raise (Exn TypeError (lit "'" ++ type_name v ++ lit "' object is not iterable"))
  end.

(** The 64-bit float [0.7], the default temperature. *)
Definition float_0_7 : spec_float := S754_finite false 6305039478318694 (-53).

(* ===================================================================== *)
(** ** The conversation builder (source lines 74-91) *)
(* ===================================================================== *)

(** A message is the dictionary [{"role": ..., "content": ...}]. *)
Record message := Message { role : pystr; content : pyval }.

Definition default_system_content : pystr :=
  lit "You are Qwen, created by Alibaba Cloud. You are a helpful assistant.".

Section Conversation.

Variable py : python.

(** [f"{v}"]: a string is inserted as it is, any other value by its
    [repr]. *)
Definition py_format (v : pyval) : pystr :=
  match v with
  | PStr s => s
  | PNone => lit "None"
  | PBool true => lit "True"
  | PBool false => lit "False"
  | _ => py_repr py v
  end.

Definition translation_content (target_lang : pyval) : pystr :=
  lit "You are a helpful assistant that translates text to "
      ++ py_format target_lang
      ++ lit ". Continue the conversation without explanation.".

Definition system_message (target_lang : pyval) : message :=
  if py_truthy target_lang
  then Message (lit "system") (PStr (translation_content target_lang))
  else Message (lit "system") (PStr default_system_content).

(** The loop over [enumerate(history)], started at index [i]. *)
Fixpoint history_messages (i : nat) (history : list pyval) : list message :=
  match history with
  | [] => []
  | msg :: rest =>
      Message (if Nat.eqb (i mod 2) 0 then lit "user" else lit "assistant") msg
        :: history_messages (S i) rest
  end.

Definition build_messages (prompt target_lang history : pyval)
  : result (list message) :=
  let messages := [system_message target_lang] in
  match (if py_truthy history then py_iter history else Ok []) with
  | Raise e => Raise e
  | Ok items =>
      Ok ((messages ++ history_messages 0 items) ++ [Message (lit "user") prompt])
  end.

End Conversation.

(* ===================================================================== *)
(** ** The server object and the backend *)
(* ===================================================================== *)

(** A loaded tokenizer or model is known by the identity of the object the
    backend returned. *)
Definition handle := nat.

(** Token identifiers, as the tokenizer and the model exchange them. *)
Definition tensor := list Z.

Inductive device_name := Cuda | Cpu.

(** The fields of [LLMServer] set by [__init__] (lines 26-32).  The
    logger is left out: it writes to the log file and to standard error
    only. *)
Record LLMServer := Server {
  model_id : pystr;
  use_cache : bool;
  model : option handle;
  tokenizer : option handle;
  device : option device_name
}.

Definition default_model_id : pystr := lit "Qwen/Qwen2.5-3B-Instruct".

(** [LLMServer.__init__] *)
Definition init (model_id : pystr) (use_cache : bool) : LLMServer :=
  Server model_id use_cache None None None.

(** [server.model is not None], the [model_loaded] of the protocol. *)
Definition model_loaded (self : LLMServer) : bool :=
  match model self with Some _ => true | None => false end.

(** A call into the backend returns or fails with a message. *)
Inductive answer (A : Type) : Type :=
| Returns (a : A)
| Fails (msg : pystr).
Arguments Returns {A} a.
Arguments Fails {A} msg.

(** The answers of the backend while one input line is processed: the
    tokenizer and the model are external, and generation may sample, so
    nothing is assumed about them. *)
Record backend := Backend {
  cuda_is_available : answer bool;
  tokenizer_from_pretrained : answer handle;
  model_from_pretrained : answer handle;
  model_to : answer handle;
  apply_chat_template : list message -> answer pystr;
  tokenize : pystr -> answer tensor;
  inputs_to : tensor -> answer tensor;
  model_generate : tensor -> pyval -> pyval -> bool -> answer tensor;
  decode : tensor -> answer pystr
}.

(** What the process does that can be seen from outside: the calls into
    the backend, with their arguments, and the lines it prints. *)
Inductive event :=
| CudaIsAvailable
| TokenizerFromPretrained (model_id : pystr) (local_files_only : bool)
| ModelFromPretrained (model_id : pystr) (dev : device_name) (local_files_only : bool)
| ModelTo (dev : device_name)
| ApplyChatTemplate (messages : list message)
| Tokenize (text : pystr)
| InputsTo (inputs : tensor)
| ModelGenerate (inputs : tensor) (max_new_tokens temperature : pyval) (do_sample : bool)
| Decode (outputs : tensor)
| PrintText (line : pystr)
| PrintJson (response : pyval).

Definition is_backend_call (ev : event) : bool :=
  match ev with PrintText _ | PrintJson _ => false | _ => true end.

(* ===================================================================== *)
(** ** Statements: state, trace and exceptions *)
(* ===================================================================== *)

(** A method of the server reads and writes the object, performs events
    and returns or raises.  The object keeps what was assigned before an
    exception. *)
Definition M (A : Type) : Type := LLMServer -> LLMServer * list event * result A.

Definition ret {A} (a : A) : M A := fun self => (self, [], Ok a).

Definition raise {A} (e : exn) : M A := fun self => (self, [], Raise e).

Definition bind {A B} (m : M A) (f : A -> M B) : M B :=
  fun self =>
    match m self with
    | (self1, t1, Ok a) =>
        let '(self2, t2, r) := f a self1 in (self2, t1 ++ t2, r)
    | (self1, t1, Raise e) => (self1, t1, Raise e)
    end.

(** [try: m except Exception as e: h e] *)
Definition try_except {A} (m : M A) (h : exn -> M A) : M A :=
  fun self =>
    match m self with
    | (self1, t1, Raise e) =>
        let '(self2, t2, r) := h e self1 in (self2, t1 ++ t2, r)
    | done => done
    end.

Definition lift {A} (r : result A) : M A := fun self => (self, [], r).

Definition get_self : M LLMServer := fun self => (self, [], Ok self).

Definition set_self (f : LLMServer -> LLMServer) : M unit :=
  fun self => (f self, [], Ok tt).

Definition emit (ev : event) : M unit := fun self => (self, [ev], Ok tt).

(** A call into the backend: the call is seen, then it returns or raises. *)
Definition call {A} (ev : event) (a : answer A) : M A :=
  fun self =>
    (self, [ev],
     match a with
     | Returns x => Ok x
     | Fails msg => Raise (Exn BackendError msg)
     end).

Declare Scope py_scope.
Delimit Scope py_scope with py.
Notation "x <- m ;; k" := (bind m (fun x => k))
  (at level 61, m at next level, right associativity) : py_scope.
Notation "m ;; k" := (bind m (fun _ => k))
  (at level 61, right associativity) : py_scope.
Local Open Scope py_scope.

Definition set_device (d : device_name) : M unit :=
  set_self (fun s => Server (model_id s) (use_cache s) (model s) (tokenizer s) (Some d)).

Definition set_tokenizer (h : handle) : M unit :=
  set_self (fun s => Server (model_id s) (use_cache s) (model s) (Some h) (device s)).

Definition set_model (h : handle) : M unit :=
  set_self (fun s => Server (model_id s) (use_cache s) (Some h) (tokenizer s) (device s)).

(** [self.x.attr] when [self.x] may be [None]. *)
Definition attribute (x : option handle) (attr : pystr) : M handle :=
  match x with
  | Some h => ret h
  | None => raise (Exn AttributeError
                       (lit "'NoneType' object has no attribute '" ++ attr ++ lit "'"))
  end.

(* ===================================================================== *)
(** ** [LLMServer.load_model] (source lines 34-69) *)
(* ===================================================================== *)

Definition load_model (b : backend) : M bool :=
  try_except
    (available <- call CudaIsAvailable (cuda_is_available b) ;;
     let dev := if (available : bool) then Cuda else Cpu in
     set_device dev ;;
     self <- get_self ;;
     tok <- call (TokenizerFromPretrained (model_id self) (use_cache self))
                 (tokenizer_from_pretrained b) ;;
     set_tokenizer tok ;;
     m <- call (ModelFromPretrained (model_id self) dev (use_cache self))
               (model_from_pretrained b) ;;
     set_model m ;;
     match dev with
     | Cpu => m' <- call (ModelTo Cpu) (model_to b) ;; set_model m'
     | Cuda => ret tt
     end ;;
     ret true)
    (fun _ => ret false).

(* ===================================================================== *)
(** ** [LLMServer.generate] (source lines 71-127) *)
(* ===================================================================== *)

Section Server.

Variable py : python.

(** The handler of [generate] logs the exception and raises it again. *)
Definition generate (b : backend)
           (prompt target_lang history max_new_tokens temperature : pyval)
  : M pystr :=
  try_except
    (messages <- lift (build_messages py prompt target_lang history) ;;
     self <- get_self ;;
     attribute (tokenizer self) (lit "apply_chat_template") ;;
     text <- call (ApplyChatTemplate messages) (apply_chat_template b messages) ;;
     encoded <- call (Tokenize text) (tokenize b text) ;;
     attribute (model self) (lit "device") ;;
     inputs <- call (InputsTo encoded) (inputs_to b encoded) ;;
     do_sample <- lift (py_gt_zero temperature) ;;
     outputs <- call (ModelGenerate inputs max_new_tokens temperature do_sample)
                     (model_generate b inputs max_new_tokens temperature do_sample) ;;
     response <- call (Decode outputs) (decode b outputs) ;;
     ret (extract_response response))
    (fun e => raise e).

(* =================================================================== *)
(** ** The command loop of [main] (source lines 163-236) *)
(* =================================================================== *)

(** What the body of the loop does next: read the following line, or
    leave the loop. *)
Inductive control := Continue | Break.

Definition print_json (response : pyval) : M unit := emit (PrintJson response).

Definition error_response (msg : pystr) : pyval :=
  PDict [(lit "error", PStr msg)].

(** The statements inside [try:], lines 173-223. *)
Definition dispatch (b : backend) (line : pystr) : M control :=
  let line := py_strip line in
  match line with
  | [] => ret Continue
  | _ :: _ =>
      request <- lift (json_loads py line) ;;
      command <- lift (py_get request (lit "command") PNone) ;;
      if py_eq_str command (lit "load_model") then
        success <- load_model b ;;
        print_json (PDict [(lit "status",
                            PStr (if (success : bool) then lit "loaded" else lit "failed"))]) ;;
        ret Continue
      else if py_eq_str command (lit "generate") then
        self <- get_self ;;
        match model self with
        | None =>
            print_json (error_response (lit "Model not loaded")) ;;
            ret Continue
        | Some _ =>
            prompt <- lift (py_get request (lit "prompt") (PStr [])) ;;
            target_lang <- lift (py_get request (lit "target_lang") PNone) ;;
            history <- lift (py_get request (lit "history") (PList [])) ;;
            max_tokens <- lift (py_get request (lit "max_tokens") (PInt 128)) ;;
            temperature <- lift (py_get request (lit "temperature") (PFloat float_0_7)) ;;
            text <- generate b prompt target_lang history max_tokens temperature ;;
            print_json (PDict [(lit "text", PStr text);
                               (lit "status", PStr (lit "success"))]) ;;
            ret Continue
        end
      else if py_eq_str command (lit "test") then
        self <- get_self ;;
        print_json (PDict [(lit "status", PStr (lit "ok"));
                           (lit "model_loaded", PBool (model_loaded self))]) ;;
        ret Continue
      else if py_eq_str command (lit "shutdown") then
        ret Break
      else
        print_json (error_response (lit "Unknown command: " ++ py_format py command)) ;;
        ret Continue
  end.

(** The two handlers, lines 225-234: the first one takes a
    [JSONDecodeError], the second one every other exception. *)
Definition handler (e : exn) : M control :=
  match exn_cls e with
  | JSONDecodeError =>
      print_json (error_response (lit "Invalid JSON: " ++ exn_msg e)) ;;
      ret Continue
  | _ =>
      print_json (error_response (exn_msg e)) ;;
      ret Continue
  end.

(** The body of [for line in sys.stdin] on one line. *)
Definition process_line (b : backend) (line : pystr) : M control :=
  try_except (dispatch b line) handler.

(** Asking [sys.stdin] for a line when none is left: the iteration is
    over, or the read raises.  The [for] statement stands outside the
    [try], so this exception is not handled and leaves [main]. *)
Definition end_of_input : M unit :=
  match stdin_end py with
  | None => ret tt
  | Some e => raise e
  end.

(** The loop over the lines standard input delivers, each taken with the
    answers the backend gives while it is processed. *)
Fixpoint serve (inputs : list (pystr * backend)) : M unit :=
  match inputs with
  | [] => end_of_input
  | (line, b) :: rest =>
      c <- process_line b line ;;
      match c with
      | Continue => serve rest
      | Break => ret tt
      end
  end.

(** [main], from the creation of the server on (lines 163-236), run on
    a fresh server object. *)
Definition main (model_id : pystr) (inputs : list (pystr * backend))
  : LLMServer * list event * result unit :=
  (emit (PrintText (lit "READY")) ;; serve inputs) (init model_id true).

End Server.

(* ===================================================================== *)
(** ** Reading the outcome of a run *)
(* ===================================================================== *)

Definition state_of {A} (r : LLMServer * list event * result A) : LLMServer :=
  fst (fst r).
Definition trace_of {A} (r : LLMServer * list event * result A) : list event :=
  snd (fst r).
Definition result_of {A} (r : LLMServer * list event * result A) : result A :=
  snd r.

(** The line, once stripped, is not empty and [json.loads] returns [v]. *)
Definition parses_to (py : python) (line : pystr) (v : pyval) : Prop :=
  py_strip line <> [] /\ json_loads py (py_strip line) = Ok v.

(** [request.get("command")] on a dictionary. *)
Definition command_of (d : list (pystr * pyval)) : pyval :=
  dict_get d (lit "command") PNone.

(** The arguments [main] passes to [generate] (lines 192-204). *)
Definition generate_of (py : python) (b : backend) (d : list (pystr * pyval))
  : M pystr :=
  generate py b (dict_get d (lit "prompt") (PStr []))
              (dict_get d (lit "target_lang") PNone)
              (dict_get d (lit "history") (PList []))
              (dict_get d (lit "max_tokens") (PInt 128))
              (dict_get d (lit "temperature") (PFloat float_0_7)).

Definition success_response (text : pystr) : pyval :=
  PDict [(lit "text", PStr text); (lit "status", PStr (lit "success"))].

Definition status_response (status : pystr) : pyval :=
  PDict [(lit "status", PStr status)].

Definition test_response (loaded : bool) : pyval :=
  PDict [(lit "status", PStr (lit "ok")); (lit "model_loaded", PBool loaded)].

(* ===================================================================== *)
(** ** Concrete lines and backends for the examples *)
(* ===================================================================== *)

(** A JSON string literal and a one- or two-member JSON object. *)
Definition quoted (s : string) : pystr := [34%N] ++ lit s ++ [34%N].

Definition line_command (c : string) : pystr :=
  lit "{" ++ quoted "command" ++ lit ":" ++ quoted c ++ lit "}".

Definition line_generate_hi : pystr :=
  lit "{" ++ quoted "command" ++ lit ":" ++ quoted "generate" ++ lit ","
      ++ quoted "prompt" ++ lit ":" ++ quoted "Hi" ++ lit "}".

Definition line_generate_bad_temperature : pystr :=
  lit "{" ++ quoted "command" ++ lit ":" ++ quoted "generate" ++ lit ","
      ++ quoted "temperature" ++ lit ":" ++ quoted "hot" ++ lit "}".

Definition line_generate_cold : pystr :=
  lit "{" ++ quoted "command" ++ lit ":" ++ quoted "generate" ++ lit ","
      ++ quoted "temperature" ++ lit ":0}".

(** The values of [json.loads] on the lines of the examples; the message
    is the one CPython gives for a line that starts with no JSON value. *)
Definition example_loads (line : pystr) : result pyval :=
  if str_eqb line (line_command "load_model") then
    Ok (PDict [(lit "command", PStr (lit "load_model"))])
  else if str_eqb line (line_command "generate") then
    Ok (PDict [(lit "command", PStr (lit "generate"))])
  else if str_eqb line (line_command "test") then
    Ok (PDict [(lit "command", PStr (lit "test"))])
  else if str_eqb line (line_command "shutdown") then
    Ok (PDict [(lit "command", PStr (lit "shutdown"))])
  else if str_eqb line line_generate_hi then
    Ok (PDict [(lit "command", PStr (lit "generate")); (lit "prompt", PStr (lit "Hi"))])
  else if str_eqb line line_generate_bad_temperature then
    Ok (PDict [(lit "command", PStr (lit "generate"));
                (lit "temperature", PStr (lit "hot"))])
  else if str_eqb line line_generate_cold then
    Ok (PDict [(lit "command", PStr (lit "generate")); (lit "temperature", PInt 0)])
  else if str_eqb line (lit "[]") then Ok (PList [])
  else if str_eqb line (quoted "hello") then Ok (PStr (lit "hello"))
  else Raise (Exn JSONDecodeError (lit "Expecting value: line 1 column 1 (char 0)")).

(** [repr] is not needed on the values of the examples, and standard
    input ends at the end of the file. *)
Definition example_py : python := Python (fun _ => lit "?") example_loads None.

(** A backend on a machine without a GPU where every call returns; the
    model answers every transcript with the same reply. *)
Definition backend_ok : backend :=
  Backend (Returns false) (Returns 1) (Returns 2) (Returns 3)
          (fun _ => Returns (lit "user" ++ [NL] ++ lit "Hi" ++ [NL] ++ lit "assistant" ++ [NL]))
          (fun _ => Returns [1; 2; 3]%Z)
          (fun t => Returns t)
          (fun t _ _ _ => Returns (t ++ [4; 5]%Z))
          (fun _ => Returns (lit "user" ++ [NL] ++ lit "Hi" ++ [NL] ++ lit "assistant"
                                 ++ [NL] ++ lit "Hello there")).

(** The tokenizer cannot be loaded. *)
Definition backend_no_tokenizer : backend :=
  Backend (Returns false) (Fails (lit "tokenizer files not found")) (Returns 2) (Returns 3)
          (apply_chat_template backend_ok) (tokenize backend_ok) (inputs_to backend_ok)
          (model_generate backend_ok) (decode backend_ok).

(** The model is constructed, and moving it to the CPU fails. *)
Definition backend_move_fails : backend :=
  Backend (Returns false) (Returns 1) (Returns 2) (Fails (lit "cannot move the model"))
          (apply_chat_template backend_ok) (tokenize backend_ok) (inputs_to backend_ok)
          (model_generate backend_ok) (decode backend_ok).

(** Generation runs out of memory. *)
Definition backend_generate_fails : backend :=
  Backend (Returns false) (Returns 1) (Returns 2) (Returns 3)
          (apply_chat_template backend_ok) (tokenize backend_ok) (inputs_to backend_ok)
          (fun _ _ _ _ => Fails (lit "out of memory"))
          (decode backend_ok).

(* ===================================================================== *)
(** ** The conversation builder: lemmas *)
(* ===================================================================== *)

Lemma parity_test n : Nat.eqb (n mod 2) 0 = Nat.even n.
Proof.
  destruct (Nat.even n) eqn:E.
  - apply Nat.even_spec in E. destruct E as [k ->].
    now rewrite Nat.mul_comm, Nat.Div0.mod_mul.
  - assert (Nat.odd n = true) as O by (now rewrite <- Nat.negb_even, E).
    apply Nat.odd_spec in O. destruct O as [k ->].
    now rewrite Nat.add_comm, Nat.mul_comm, Nat.Div0.mod_add.
Qed.

Lemma history_messages_length i history :
  length (history_messages i history) = length history.
Proof.
  revert i; induction history as [|m l IH]; intros i; simpl; [reflexivity|].
  now rewrite IH.
Qed.

Lemma history_messages_nth history : forall k i h,
  nth_error history i = Some h ->
  nth_error (history_messages k history) i =
  Some (Message (if Nat.even (k + i) then lit "user" else lit "assistant") h).
Proof.
  induction history as [|m l IH]; intros k [|i] h;
    cbn [history_messages nth_error]; try discriminate.
  - intros [= ->]. now rewrite parity_test, Nat.add_0_r.
  - intros H. rewrite (IH (S k) i h H). now rewrite Nat.add_succ_r.
Qed.

Lemma history_messages_roles history : forall k,
  Forall (fun m => role m = lit "user" \/ role m = lit "assistant")
         (history_messages k history).
Proof.
  induction history as [|m l IH]; intros k; cbn [history_messages];
    constructor; [|apply IH].
  cbn [role]. destruct (Nat.eqb (k mod 2) 0); [now left | now right].
Qed.

(** On a list, the builder never fails and lays the messages out in order. *)
Lemma build_messages_list py prompt target_lang history :
  build_messages py prompt target_lang (PList history) =
  Ok (system_message py target_lang
        :: history_messages 0 history ++ [Message (lit "user") prompt]).
Proof.
  unfold build_messages. destruct history as [|m l]; reflexivity.
Qed.

(** Whatever the history, a conversation that is built starts with the
    system message, ends with the prompt and has only user and assistant
    messages in between. *)
Lemma build_messages_shape py prompt target_lang history msgs :
  build_messages py prompt target_lang history = Ok msgs ->
  exists items,
    msgs = system_message py target_lang
             :: history_messages 0 items ++ [Message (lit "user") prompt].
Proof.
  unfold build_messages.
  destruct (if py_truthy history then py_iter history else Ok []) as [items|e];
    [|discriminate].
  intros [= <-]. now exists items.
Qed.

(* ===================================================================== *)
(** ** [generate]: lemmas *)
(* ===================================================================== *)

Lemma build_messages_exn py prompt target_lang history e :
  build_messages py prompt target_lang history = Raise e -> exn_cls e = TypeError.
Proof.
  unfold build_messages. destruct (py_truthy history); [|discriminate].
  destruct history; simpl; try discriminate; now intros [= <-].
Qed.

Lemma py_gt_zero_exn v e : py_gt_zero v = Raise e -> exn_cls e = TypeError.
Proof. destruct v; simpl; try discriminate; now intros [= <-]. Qed.

(** Runs [generate] through its statements, one case per outcome of each
    of them. *)
Ltac run_generate :=
  unfold generate, try_except, bind, lift, call, attribute, get_self, ret, raise,
    state_of, trace_of, result_of;
  repeat (cbn [fst snd app];
          match goal with
          | |- context [match ?x with _ => _ end] =>
              lazymatch x with
              | context [match _ with _ => _ end] => fail
              | _ => destruct x eqn:?
              end
          end);
  cbn [fst snd app].

Lemma generate_state py b p tl h mt temp self :
  state_of (generate py b p tl h mt temp self) = self.
Proof. run_generate; reflexivity. Qed.

Lemma generate_calls_only py b p tl h mt temp self :
  forallb is_backend_call (trace_of (generate py b p tl h mt temp self)) = true.
Proof. run_generate; reflexivity. Qed.

Lemma generate_not_json_error py b p tl h mt temp self e :
  result_of (generate py b p tl h mt temp self) = Raise e ->
  exn_cls e <> JSONDecodeError.
Proof.
  run_generate; intros [= <-]; try discriminate;
    match goal with
    | H : build_messages _ _ _ _ = Raise _ |- _ =>
        now rewrite (build_messages_exn _ _ _ _ _ H)
    | H : py_gt_zero _ = Raise _ |- _ => now rewrite (py_gt_zero_exn _ _ H)
    end.
Qed.

(** The only call of [model.generate] carries the request's limits and
    the outcome of [temperature > 0]. *)
Lemma generate_sampling py b p tl h mt temp self inputs mt' temp' ds :
  In (ModelGenerate inputs mt' temp' ds)
     (trace_of (generate py b p tl h mt temp self)) ->
  mt' = mt /\ temp' = temp /\ py_gt_zero temp = Ok ds.
Proof.
  run_generate; cbn [In]; intros H;
    repeat match goal with
           | H : _ \/ _ |- _ => destruct H
           | H : False |- _ => contradiction
           | H : _ = ModelGenerate _ _ _ _ |- _ =>
               first [discriminate H | injection H as <- <- <- <-]
           end;
    auto.
Qed.

(** When the conversation is built and the tokenizer is there, the
    conversation is what the chat template is applied to, before
    anything else. *)
Lemma generate_applies_template py b p tl h mt temp self msgs tok :
  build_messages py p tl h = Ok msgs -> tokenizer self = Some tok ->
  exists rest,
    trace_of (generate py b p tl h mt temp self) = ApplyChatTemplate msgs :: rest.
Proof.
  intros Hb Ht. unfold generate, try_except, bind, lift, attribute, get_self,
    ret, raise, trace_of. rewrite Hb, Ht. cbn [fst snd app call].
  repeat (match goal with
          | |- context [match ?x with _ => _ end] =>
              lazymatch x with
              | context [match _ with _ => _ end] => fail
              | _ => destruct x eqn:?
              end
          end; cbn [fst snd app]); eexists; reflexivity.
Qed.

(** The run in which every statement of [generate] goes through. *)
Lemma generate_success py b p tl h mt temp self msgs tok m text enc inputs ds out resp :
  build_messages py p tl h = Ok msgs ->
  tokenizer self = Some tok -> model self = Some m ->
  apply_chat_template b msgs = Returns text ->
  tokenize b text = Returns enc ->
  inputs_to b enc = Returns inputs ->
  py_gt_zero temp = Ok ds ->
  model_generate b inputs mt temp ds = Returns out ->
  decode b out = Returns resp ->
  generate py b p tl h mt temp self =
  (self,
   [ApplyChatTemplate msgs; Tokenize text; InputsTo enc;
    ModelGenerate inputs mt temp ds; Decode out],
   Ok (extract_response resp)).
Proof.
  intros Hb Ht Hm H1 H2 H3 H4 H5 H6.
  unfold generate, try_except, bind, lift, attribute, get_self, ret, raise, call.
  rewrite Hb, Ht, Hm. cbn [fst snd app]. rewrite H1. cbn [fst snd app].
  rewrite H2. cbn [fst snd app]. rewrite H3, H4. cbn [fst snd app].
  rewrite H5. cbn [fst snd app]. rewrite H6. reflexivity.
Qed.

(* ===================================================================== *)
(** ** The command loop: one lemma per kind of line *)
(* ===================================================================== *)

(** Enters the body of the loop on a line that parses. *)
Ltac enter_line Hp :=
  let Hne := fresh "Hne" in
  destruct Hp as [Hne Hp];
  unfold process_line, dispatch;
  destruct (py_strip _) as [|? ?] eqn:?; [congruence|];
  unfold try_except, bind, lift; rewrite Hp; cbn [py_get fst snd app].

(** Compares a known command with the literals of the dispatch. *)
Ltac decide_commands :=
  repeat match goal with
         | |- context [py_eq_str (PStr ?a) ?c] =>
             let v := eval vm_compute in (py_eq_str (PStr a) c) in
             change (py_eq_str (PStr a) c) with v
         end;
  cbv iota.

Lemma process_line_blank py b line self :
  py_strip line = [] ->
  process_line py b line self = (self, [], Ok Continue).
Proof. intros H. unfold process_line, dispatch. now rewrite H. Qed.

(** The answer of the handlers of lines 225-234 to an exception. *)
Definition handler_message (e : exn) : pystr :=
  match exn_cls e with
  | JSONDecodeError => lit "Invalid JSON: " ++ exn_msg e
  | _ => exn_msg e
  end.

Lemma process_line_loads_raises py b line self e :
  py_strip line <> [] -> json_loads py (py_strip line) = Raise e ->
  process_line py b line self =
  (self, [PrintJson (error_response (handler_message e))], Ok Continue).
Proof.
  intros Hne Hp. unfold process_line, dispatch.
  destruct (py_strip line) as [|c l] eqn:El; [congruence|].
  unfold try_except, bind, lift. rewrite Hp. cbn [fst snd app].
  unfold handler, handler_message. destruct (exn_cls e); reflexivity.
Qed.

Lemma process_line_not_dict py b line self v :
  parses_to py line v -> (forall d, v <> PDict d) ->
  process_line py b line self =
  (self,
   [PrintJson (error_response
                 (lit "'" ++ type_name v ++ lit "' object has no attribute 'get'"))],
   Ok Continue).
Proof.
  intros Hp Hv. enter_line Hp.
  destruct v; try reflexivity. now elim (Hv d).
Qed.

Lemma process_line_test py b line d self :
  parses_to py line (PDict d) -> command_of d = PStr (lit "test") ->
  process_line py b line self =
  (self, [PrintJson (test_response (model_loaded self))], Ok Continue).
Proof.
  intros Hp Hc. enter_line Hp. unfold command_of in Hc. rewrite Hc.
  decide_commands. reflexivity.
Qed.

Lemma process_line_shutdown py b line d self :
  parses_to py line (PDict d) -> command_of d = PStr (lit "shutdown") ->
  process_line py b line self = (self, [], Ok Break).
Proof.
  intros Hp Hc. enter_line Hp. unfold command_of in Hc. rewrite Hc.
  decide_commands. reflexivity.
Qed.

Lemma process_line_generate_unloaded py b line d self :
  parses_to py line (PDict d) -> command_of d = PStr (lit "generate") ->
  model self = None ->
  process_line py b line self =
  (self, [PrintJson (error_response (lit "Model not loaded"))], Ok Continue).
Proof.
  intros Hp Hc Hm. enter_line Hp. unfold command_of in Hc. rewrite Hc.
  decide_commands. unfold get_self. cbn [fst snd app]. rewrite Hm. reflexivity.
Qed.

Lemma process_line_generate py b line d self h :
  parses_to py line (PDict d) -> command_of d = PStr (lit "generate") ->
  model self = Some h ->
  process_line py b line self =
  (self,
   trace_of (generate_of py b d self)
     ++ [PrintJson match result_of (generate_of py b d self) with
                   | Ok text => success_response text
                   | Raise e => error_response (exn_msg e)
                   end],
   Ok Continue).
Proof.
  intros Hp Hc Hm. enter_line Hp. unfold command_of in Hc. rewrite Hc.
  decide_commands. unfold get_self. cbn [fst snd app]. rewrite Hm.
  cbn [fst snd app]. fold (generate_of py b d).
  pose proof (generate_state py b (dict_get d (lit "prompt") (PStr []))
                (dict_get d (lit "target_lang") PNone)
                (dict_get d (lit "history") (PList []))
                (dict_get d (lit "max_tokens") (PInt 128))
                (dict_get d (lit "temperature") (PFloat float_0_7)) self) as Hs.
  pose proof (generate_not_json_error py b (dict_get d (lit "prompt") (PStr []))
                (dict_get d (lit "target_lang") PNone)
                (dict_get d (lit "history") (PList []))
                (dict_get d (lit "max_tokens") (PInt 128))
                (dict_get d (lit "temperature") (PFloat float_0_7)) self) as Hj.
  fold (generate_of py b d) in Hs, Hj. unfold state_of, trace_of, result_of in *.
  destruct (generate_of py b d self) as [[s t] [text|e]]; cbn [fst snd] in *; subst s.
  - unfold print_json, emit, ret. cbn [fst snd app]. reflexivity.
  - unfold handler. specialize (Hj e eq_refl).
    destruct (exn_cls e); try congruence;
      unfold print_json, emit, bind, ret; cbn [fst snd app];
      reflexivity.
Qed.

(* ===================================================================== *)
(** ** [load_model]: lemmas *)
(* ===================================================================== *)

(** The value [load_model] returns; it never raises. *)
Definition load_outcome (b : backend) (self : LLMServer) : bool :=
  match result_of (load_model b self) with Ok ok => ok | Raise _ => false end.

(** The backend gets as far as returning a model from
    [AutoModelForCausalLM.from_pretrained]. *)
Definition constructs_model (b : backend) : bool :=
  match cuda_is_available b, tokenizer_from_pretrained b, model_from_pretrained b with
  | Returns _, Returns _, Returns _ => true
  | _, _, _ => false
  end.

(** Every call of [load_model] returns. *)
Definition loads (b : backend) : bool :=
  match cuda_is_available b, tokenizer_from_pretrained b, model_from_pretrained b with
  | Returns true, Returns _, Returns _ => true
  | Returns false, Returns _, Returns _ =>
      match model_to b with Returns _ => true | Fails _ => false end
  | _, _, _ => false
  end.

Ltac run_load_model :=
  unfold load_outcome, load_model, try_except, bind, call, get_self, set_device,
    set_tokenizer, set_model, set_self, ret, state_of, trace_of, result_of,
    constructs_model, loads, model_loaded;
  repeat (cbn [fst snd app model tokenizer device model_id use_cache];
          match goal with
          | |- context [match ?x with _ => _ end] =>
              lazymatch x with
              | context [match _ with _ => _ end] => fail
              | _ => destruct x eqn:?
              end
          | |- context [if ?x then _ else _] =>
              lazymatch x with
              | context [match _ with _ => _ end] => fail
              | _ => destruct x eqn:?
              end
          end);
  cbn [fst snd app model tokenizer device model_id use_cache].

Lemma load_model_returns b self :
  result_of (load_model b self) = Ok (load_outcome b self).
Proof. run_load_model; reflexivity. Qed.

Lemma load_outcome_loads b self : load_outcome b self = loads b.
Proof. run_load_model; reflexivity. Qed.

Lemma load_model_calls_only b self :
  forallb is_backend_call (trace_of (load_model b self)) = true.
Proof. run_load_model; reflexivity. Qed.

(** A model that is there stays there, whatever the load does. *)
Lemma load_model_keeps_model b self :
  model_loaded self = true -> model_loaded (state_of (load_model b self)) = true.
Proof. run_load_model; congruence. Qed.

Lemma load_model_success_loaded b self :
  load_outcome b self = true -> model_loaded (state_of (load_model b self)) = true.
Proof. run_load_model; congruence. Qed.

Lemma load_model_not_constructed b self :
  constructs_model b = false -> model (state_of (load_model b self)) = model self.
Proof. run_load_model; congruence. Qed.

Lemma load_model_constructed b self :
  constructs_model b = true -> model_loaded (state_of (load_model b self)) = true.
Proof. run_load_model; congruence. Qed.

(** The tokenizer is assigned before the model is. *)
Lemma load_model_tokenizer b self :
  (model self <> None -> tokenizer self <> None) ->
  model (state_of (load_model b self)) <> None ->
  tokenizer (state_of (load_model b self)) <> None.
Proof. run_load_model; intuition congruence. Qed.

Lemma load_model_settings b self :
  model_id (state_of (load_model b self)) = model_id self /\
  use_cache (state_of (load_model b self)) = use_cache self.
Proof. run_load_model; split; reflexivity. Qed.

Lemma py_eq_str_true v s : py_eq_str v s = true -> v = PStr s.
Proof.
  destruct v; simpl; try discriminate. intros H.
  now apply str_eqb_eq in H as ->.
Qed.

Lemma process_line_load_model py b line d self :
  parses_to py line (PDict d) -> command_of d = PStr (lit "load_model") ->
  process_line py b line self =
  (state_of (load_model b self),
   trace_of (load_model b self)
     ++ [PrintJson (status_response
                      (if load_outcome b self then lit "loaded" else lit "failed"))],
   Ok Continue).
Proof.
  intros Hp Hc. enter_line Hp. unfold command_of in Hc. rewrite Hc.
  decide_commands.
  pose proof (load_model_returns b self) as Hr.
  unfold state_of, trace_of, result_of in *.
  destruct (load_model b self) as [[s t] r]. cbn [fst snd] in *. subst r.
  reflexivity.
Qed.

Lemma process_line_unknown py b line d self :
  parses_to py line (PDict d) ->
  py_eq_str (command_of d) (lit "load_model") = false ->
  py_eq_str (command_of d) (lit "generate") = false ->
  py_eq_str (command_of d) (lit "test") = false ->
  py_eq_str (command_of d) (lit "shutdown") = false ->
  process_line py b line self =
  (self,
   [PrintJson (error_response (lit "Unknown command: " ++ py_format py (command_of d)))],
   Ok Continue).
Proof.
  intros Hp H1 H2 H3 H4. enter_line Hp. fold (command_of d).
  rewrite H1, H2, H3, H4. reflexivity.
Qed.

(** The protocol of section 4.4, as a relation between a line, the server
    before it is processed and the outcome of processing it. *)
Inductive step (py : python) (b : backend) (line : pystr) (self : LLMServer)
  : LLMServer * list event * result control -> Prop :=
| step_blank :
    py_strip line = [] ->
    step py b line self (self, [], Ok Continue)
| step_loads_raises e :
    py_strip line <> [] -> json_loads py (py_strip line) = Raise e ->
    step py b line self
         (self, [PrintJson (error_response (handler_message e))], Ok Continue)
| step_not_dict v :
    parses_to py line v -> (forall d, v <> PDict d) ->
    step py b line self
         (self,
          [PrintJson (error_response
                        (lit "'" ++ type_name v ++ lit "' object has no attribute 'get'"))],
          Ok Continue)
| step_load_model d :
    parses_to py line (PDict d) -> command_of d = PStr (lit "load_model") ->
    step py b line self
         (state_of (load_model b self),
          trace_of (load_model b self)
            ++ [PrintJson (status_response
                             (if load_outcome b self then lit "loaded" else lit "failed"))],
          Ok Continue)
| step_generate_unloaded d :
    parses_to py line (PDict d) -> command_of d = PStr (lit "generate") ->
    model self = None ->
    step py b line self
         (self, [PrintJson (error_response (lit "Model not loaded"))], Ok Continue)
| step_generate d h :
    parses_to py line (PDict d) -> command_of d = PStr (lit "generate") ->
    model self = Some h ->
    step py b line self
         (self,
          trace_of (generate_of py b d self)
            ++ [PrintJson match result_of (generate_of py b d self) with
                          | Ok text => success_response text
                          | Raise e => error_response (exn_msg e)
                          end],
          Ok Continue)
| step_test d :
    parses_to py line (PDict d) -> command_of d = PStr (lit "test") ->
    step py b line self
         (self, [PrintJson (test_response (model_loaded self))], Ok Continue)
| step_shutdown d :
    parses_to py line (PDict d) -> command_of d = PStr (lit "shutdown") ->
    step py b line self (self, [], Ok Break)
| step_unknown d :
    parses_to py line (PDict d) ->
    py_eq_str (command_of d) (lit "load_model") = false ->
    py_eq_str (command_of d) (lit "generate") = false ->
    py_eq_str (command_of d) (lit "test") = false ->
    py_eq_str (command_of d) (lit "shutdown") = false ->
    step py b line self
         (self,
          [PrintJson (error_response
                        (lit "Unknown command: " ++ py_format py (command_of d)))],
          Ok Continue).

(** The body of the loop follows the protocol on every line. *)
Lemma process_line_step py b line self :
  step py b line self (process_line py b line self).
Proof.
  destruct (py_strip line) as [|c l] eqn:El.
  - rewrite process_line_blank by assumption. now constructor.
  - assert (Hne : py_strip line <> []) by congruence.
    destruct (json_loads py (py_strip line)) as [v|e] eqn:Hl.
    + assert (Hp : parses_to py line v) by (split; assumption).
      assert (Hnd : (forall d, v <> PDict d) ->
                    step py b line self (process_line py b line self)).
      { intros Hv. rewrite (process_line_not_dict py b line self v) by assumption.
        now constructor. }
      destruct v as [| | | | | |d]; try (apply Hnd; discriminate).
      clear Hnd.
      destruct (py_eq_str (command_of d) (lit "load_model")) eqn:H1.
      { apply py_eq_str_true in H1.
        rewrite (process_line_load_model py b line d self) by assumption.
        now apply step_load_model with (d := d). }
      destruct (py_eq_str (command_of d) (lit "generate")) eqn:H2.
      { apply py_eq_str_true in H2. destruct (model self) as [h|] eqn:Hm.
        - rewrite (process_line_generate py b line d self h) by assumption.
          now apply step_generate with (h := h).
        - rewrite (process_line_generate_unloaded py b line d self) by assumption.
          now apply step_generate_unloaded with (d := d). }
      destruct (py_eq_str (command_of d) (lit "test")) eqn:H3.
      { apply py_eq_str_true in H3.
        rewrite (process_line_test py b line d self) by assumption.
        now apply step_test with (d := d). }
      destruct (py_eq_str (command_of d) (lit "shutdown")) eqn:H4.
      { apply py_eq_str_true in H4.
        rewrite (process_line_shutdown py b line d self) by assumption.
        now apply step_shutdown with (d := d). }
      rewrite (process_line_unknown py b line d self) by assumption.
      now constructor.
    + rewrite (process_line_loads_raises py b line self e) by assumption.
      now constructor.
Qed.

(* ===================================================================== *)
(** ** The loop as a whole *)
(* ===================================================================== *)

Lemma serve_cons py line b rest self :
  serve py ((line, b) :: rest) self =
  let r := process_line py b line self in
  match result_of r with
  | Ok Continue =>
      let r' := serve py rest (state_of r) in
      (state_of r', trace_of r ++ trace_of r', result_of r')
  | Ok Break => (state_of r, trace_of r, Ok tt)
  | Raise e => (state_of r, trace_of r, Raise e)
  end.
Proof.
  cbn [serve]. unfold bind, state_of, trace_of, result_of.
  destruct (process_line py b line self) as [[s t] [[|]|e]]; cbn [fst snd].
  - destruct (serve py rest s) as [[s' t'] r']. reflexivity.
  - unfold ret. now rewrite app_nil_r.
  - reflexivity.
Qed.

(** A line after which the loop goes on: the rest of the input is served
    from the state the line leaves, after what the line printed. *)
Lemma serve_continue py line b rest self s t :
  process_line py b line self = (s, t, Ok Continue) ->
  serve py ((line, b) :: rest) self =
  (state_of (serve py rest s), t ++ trace_of (serve py rest s),
   result_of (serve py rest s)).
Proof. intros H. rewrite serve_cons, H. reflexivity. Qed.

(** When no line is left nothing is printed and the server stays as it
    is; the loop ends normally, or on the exception of the failed read. *)
Lemma serve_nil py self :
  state_of (serve py [] self) = self /\
  trace_of (serve py [] self) = [] /\
  result_of (serve py [] self)
  = match stdin_end py with None => Ok tt | Some e => Raise e end.
Proof.
  cbn [serve]. unfold end_of_input.
  destruct (stdin_end py); repeat split; reflexivity.
Qed.


Lemma process_line_keeps_model py b line self :
  model_loaded self = true ->
  model_loaded (state_of (process_line py b line self)) = true.
Proof.
  intros H. destruct (process_line_step py b line self);
    cbn [state_of fst]; auto using load_model_keeps_model.
Qed.

(** Only a [load_model] command changes the server object. *)
Lemma process_line_changes_state py b line self :
  state_of (process_line py b line self) <> self ->
  exists d, parses_to py line (PDict d) /\
            command_of d = PStr (lit "load_model") /\
            state_of (process_line py b line self) = state_of (load_model b self).
Proof.
  destruct (process_line_step py b line self); cbn [state_of fst];
    try congruence.
  intros _. now exists d.
Qed.

Lemma error_is_not_status msg status :
  PrintJson (error_response msg) <> PrintJson (status_response status).
Proof. unfold error_response, status_response. intros [=]. Qed.

Lemma success_is_not_status text status :
  PrintJson (success_response text) <> PrintJson (status_response status).
Proof. unfold success_response, test_response, status_response. intros [=]. Qed.

Lemma test_is_not_status loaded status :
  PrintJson (test_response loaded) <> PrintJson (status_response status).
Proof. unfold success_response, test_response, status_response. intros [=]. Qed.

Lemma generate_of_calls_only py b d self :
  forallb is_backend_call (trace_of (generate_of py b d self)) = true.
Proof. apply generate_calls_only. Qed.

Lemma process_line_prints_loaded py b line self :
  In (PrintJson (status_response (lit "loaded")))
     (trace_of (process_line py b line self)) ->
  model_loaded (state_of (process_line py b line self)) = true.
Proof.
  destruct (process_line_step py b line self) as
    [ | | | d Hp Hc | | d h Hp Hc Hm | | | ];
    cbn [state_of trace_of fst snd In];
    try (intros [Hin|[]]; exfalso;
         first [ apply error_is_not_status in Hin
               | apply test_is_not_status in Hin ]; exact Hin);
    try contradiction.
  - rewrite in_app_iff. intros [Hin|[Hin|[]]].
    + pose proof (load_model_calls_only b self) as Hc'.
      rewrite forallb_forall in Hc'. specialize (Hc' _ Hin). discriminate.
    + apply load_model_success_loaded.
      destruct (load_outcome b self); [reflexivity|].
      vm_compute in Hin. discriminate.
  - rewrite in_app_iff. intros [Hin|[Hin|[]]]; exfalso.
    + pose proof (generate_of_calls_only py b d self) as Hc'.
      rewrite forallb_forall in Hc'. specialize (Hc' _ Hin). discriminate.
    + destruct (result_of (generate_of py b d self));
        [ now apply success_is_not_status in Hin
        | now apply error_is_not_status in Hin ].
Qed.

Lemma serve_keeps_model py inputs : forall self,
  model_loaded self = true -> model_loaded (state_of (serve py inputs self)) = true.
Proof.
  induction inputs as [|[line b] rest IH]; intros self H;
    [now rewrite (proj1 (serve_nil py self))|].
  rewrite serve_cons. cbv zeta.
  pose proof (process_line_keeps_model py b line self H) as H'.
  destruct (result_of (process_line py b line self)) as [[|]|e];
    cbn [state_of fst]; auto.
Qed.

(** Once the answer to a [load_model] was ["loaded"], a model is held. *)
Lemma serve_prints_loaded py inputs : forall self,
  In (PrintJson (status_response (lit "loaded"))) (trace_of (serve py inputs self)) ->
  model_loaded (state_of (serve py inputs self)) = true.
Proof.
  induction inputs as [|[line b] rest IH]; intros self;
    [rewrite (proj1 (proj2 (serve_nil py self))); intros []|].
  rewrite serve_cons. cbv zeta.
  pose proof (process_line_prints_loaded py b line self) as H1.
  destruct (result_of (process_line py b line self)) as [[|]|e];
    cbn [state_of trace_of fst snd]; auto.
  rewrite in_app_iff. intros [H|H].
  - apply serve_keeps_model. now apply H1.
  - now apply IH.
Qed.

(** On every server the loop reaches, a model comes with its tokenizer:
    [generate] never finds the tokenizer missing. *)
Definition has_tokenizer (self : LLMServer) : Prop :=
  model self <> None -> tokenizer self <> None.

Lemma process_line_has_tokenizer py b line self :
  has_tokenizer self -> has_tokenizer (state_of (process_line py b line self)).
Proof.
  intros H. destruct (process_line_step py b line self);
    cbn [state_of fst]; try exact H.
  unfold has_tokenizer. now apply load_model_tokenizer.
Qed.

Lemma serve_has_tokenizer py inputs : forall self,
  has_tokenizer self -> has_tokenizer (state_of (serve py inputs self)).
Proof.
  induction inputs as [|[line b] rest IH]; intros self H;
    [now rewrite (proj1 (serve_nil py self))|].
  rewrite serve_cons. cbv zeta.
  pose proof (process_line_has_tokenizer py b line self H) as H'.
  destruct (result_of (process_line py b line self)) as [[|]|e];
    cbn [state_of fst]; auto.
Qed.

(** [main] prints the sentinel, then serves the input from a server
    without a model. *)
Lemma main_serves py mid inputs :
  main py mid inputs
  = (state_of (serve py inputs (init mid true)),
     PrintText (lit "READY") :: trace_of (serve py inputs (init mid true)),
     result_of (serve py inputs (init mid true))).
Proof.
  unfold main, bind, emit, state_of, trace_of, result_of.
  destruct (serve py inputs (init mid true)) as [[s t] r]. reflexivity.
Qed.


(* ===================================================================== *)
(** * The properties of the specification *)
(* ===================================================================== *)

(** ** The conversation *)

(** C1. For a request with prompt [p], any [target_lang] and a history of
    [n] entries, the conversation has exactly [n + 2] messages: the system
    message at index 0, at index [1 + i] the [i]-th entry of the history,
    verbatim, as a user message when [i] is even and as an assistant
    message when [i] is odd, and last the user message holding [p].  This
    conversation is what [generate] hands to the chat template. *)
Theorem conversation_layout py (p target_lang : pyval) (history : list pyval) :
  exists msgs,
    build_messages py p target_lang (PList history) = Ok msgs /\
    length msgs = length history + 2 /\
    (exists c, nth_error msgs 0 = Some (Message (lit "system") c)) /\
    (forall i h, nth_error history i = Some h ->
       nth_error msgs (1 + i) =
       Some (Message (if Nat.even i then lit "user" else lit "assistant") h)) /\
    nth_error msgs (length history + 1) = Some (Message (lit "user") p) /\
    (forall b max_new_tokens temperature self tok,
       tokenizer self = Some tok ->
       exists rest,
         trace_of (generate py b p target_lang (PList history)
                            max_new_tokens temperature self)
         = ApplyChatTemplate msgs :: rest).
Proof.
  eexists. split; [apply build_messages_list|].
  split; [|split; [|split; [|split]]].
  - cbn [length]. rewrite length_app, history_messages_length. cbn [length]. lia.
  - unfold system_message. destruct (py_truthy target_lang); eexists; reflexivity.
  - intros i h Hi. cbn [Nat.add nth_error].
    rewrite nth_error_app1
      by (rewrite history_messages_length; apply nth_error_Some; congruence).
    now rewrite (history_messages_nth history 0 i h Hi).
  - rewrite Nat.add_comm. cbn [Nat.add nth_error].
    rewrite nth_error_app2 by (rewrite history_messages_length; lia).
    now rewrite history_messages_length, Nat.sub_diag.
  - intros b mt temp self tok Ht.
    apply generate_applies_template with (tok := tok); [|exact Ht].
    apply build_messages_list.
Qed.

(** The system prompt the specification describes for a target language
    that is a string or absent. *)
Definition system_text (target_lang : option pystr) : pystr :=
  match target_lang with
  | Some (c :: s) =>
      lit "You are a helpful assistant that translates text to " ++ (c :: s)
          ++ lit ". Continue the conversation without explanation."
  | _ => default_system_content
  end.

(** [request.get("target_lang")] for a string or a missing field. *)
Definition of_option (o : option pystr) : pyval :=
  match o with Some s => PStr s | None => PNone end.

(** C8. The system message is the translation message, with the target
    language inserted, exactly when [target_lang] is present and not
    empty, and the fixed default message otherwise; it is the first
    message and no other message has the role [system]. *)
Theorem system_message_choice py (p history : pyval) (target_lang : option pystr) msgs :
  build_messages py p (of_option target_lang) history = Ok msgs ->
  exists rest,
    msgs = Message (lit "system") (PStr (system_text target_lang)) :: rest /\
    Forall (fun m => role m <> lit "system") rest.
Proof.
  intros H. apply build_messages_shape in H as [items ->].
  eexists. split.
  - f_equal. destruct target_lang as [[|c s]|]; reflexivity.
  - apply Forall_app. split.
    + eapply Forall_impl; [|apply history_messages_roles].
      intros m [-> | ->]; intros E; vm_compute in E; discriminate.
    + constructor; [|constructor]. intros E; vm_compute in E; discriminate.
Qed.

Lemma system_message_choice_witness :
  exists rest,
    [Message (lit "system")
       (PStr (lit "You are a helpful assistant that translates text to "
                  ++ lit "French"
                  ++ lit ". Continue the conversation without explanation."));
     Message (lit "user") (PStr (lit "Bonjour"));
     Message (lit "assistant") (PStr (lit "Salut"));
     Message (lit "user") (PStr (lit "Hi"))]
    = Message (lit "system") (PStr (system_text (Some (lit "French")))) :: rest /\
    Forall (fun m => role m <> lit "system") rest.
Proof.
  apply (system_message_choice example_py (PStr (lit "Hi"))
           (PList [PStr (lit "Bonjour"); PStr (lit "Salut")]) (Some (lit "French"))).
  vm_compute. reflexivity.
Defined.

(** ** Sampling *)

(** A temperature strictly greater than zero: a positive integer, a
    positive finite float or plus infinity (and [True], which Python
    counts as 1). *)
Definition strictly_positive (v : pyval) : Prop :=
  match v with
  | PInt z => (0 < z)%Z
  | PFloat (S754_infinity false) => True
  | PFloat (S754_finite false _ _) => True
  | PBool true => True
  | _ => False
  end.

Lemma py_gt_zero_positive v ds :
  py_gt_zero v = Ok ds -> (ds = true <-> strictly_positive v).
Proof.
  destruct v as [|[|]|z|[[|]|[|]| |[|] m e]| | |]; simpl; try discriminate;
    intros [= <-]; try (split; [discriminate | contradiction]);
    try (split; auto; fail).
  apply Z.ltb_lt.
Qed.

(** C9. Whenever a [generate] command reaches the model's generation
    call, the call is made with the request's temperature, and with
    sampling enabled if and only if that temperature is strictly greater
    than zero; otherwise it asks for deterministic generation. *)
Theorem sampling_iff_positive_temperature py b line d self inputs mt temp ds :
  parses_to py line (PDict d) ->
  command_of d = PStr (lit "generate") ->
  In (ModelGenerate inputs mt temp ds) (trace_of (process_line py b line self)) ->
  temp = dict_get d (lit "temperature") (PFloat float_0_7) /\
  (ds = true <-> strictly_positive temp) /\
  (ds = false <-> ~ strictly_positive temp).
Proof.
  intros Hp Hc Hin.
  assert (temp = dict_get d (lit "temperature") (PFloat float_0_7) /\
          py_gt_zero temp = Ok ds) as [Et Hg].
  { destruct (model self) as [h|] eqn:Hm.
    - rewrite (process_line_generate py b line d self h Hp Hc Hm) in Hin.
      cbn [trace_of fst snd] in Hin. apply in_app_iff in Hin as [Hin|[Hin|[]]];
        [|discriminate].
      apply generate_sampling in Hin as (_ & -> & Hg). now split.
    - rewrite (process_line_generate_unloaded py b line d self Hp Hc Hm) in Hin.
      destruct Hin as [Hin|[]]. discriminate. }
  split; [exact Et|]. pose proof (py_gt_zero_positive temp ds Hg) as Hpos.
  split; [exact Hpos|]. destruct ds; split; intros H; try congruence.
  - exfalso. apply H. now apply Hpos.
  - intros Hs. apply Hpos in Hs. discriminate.
Qed.

(** The server after [load_model] went through on [backend_ok]. *)
Definition loaded_server : LLMServer :=
  Server default_model_id true (Some 3) (Some 1) (Some Cpu).

Lemma loaded_server_reached :
  state_of (load_model backend_ok (init default_model_id true)) = loaded_server.
Proof. reflexivity. Qed.

Ltac find_in := vm_compute; repeat (first [left; reflexivity | right]).

Ltac parse_example := split; [vm_compute; discriminate | vm_compute; reflexivity].

Lemma sampling_iff_positive_temperature_witness :
  PFloat float_0_7
  = dict_get [(lit "command", PStr (lit "generate")); (lit "prompt", PStr (lit "Hi"))]
             (lit "temperature") (PFloat float_0_7) /\
  (true = true <-> strictly_positive (PFloat float_0_7)) /\
  (true = false <-> ~ strictly_positive (PFloat float_0_7)).
Proof.
  apply (sampling_iff_positive_temperature example_py backend_ok line_generate_hi
           [(lit "command", PStr (lit "generate")); (lit "prompt", PStr (lit "Hi"))]
           loaded_server [1; 2; 3]%Z (PInt 128) (PFloat float_0_7) true).
  - parse_example.
  - reflexivity.
  - find_in.
Defined.

(** A temperature of zero asks for deterministic generation. *)
Example zero_temperature_does_not_sample :
  trace_of (process_line example_py backend_ok line_generate_cold loaded_server)
  = [ApplyChatTemplate
       [Message (lit "system") (PStr default_system_content);
        Message (lit "user") (PStr [])];
     Tokenize (lit "user" ++ [NL] ++ lit "Hi" ++ [NL] ++ lit "assistant" ++ [NL]);
     InputsTo [1; 2; 3]%Z;
     ModelGenerate [1; 2; 3]%Z (PInt 128) (PInt 0) false;
     Decode [1; 2; 3; 4; 5]%Z;
     PrintJson (success_response (lit "Hello there"))].
Proof. vm_compute. reflexivity. Qed.

(** A temperature that is not a number stops the request before the
    model is called. *)
Example bad_temperature_is_an_error :
  trace_of (process_line example_py backend_ok line_generate_bad_temperature
                         loaded_server)
  = [ApplyChatTemplate
       [Message (lit "system") (PStr default_system_content);
        Message (lit "user") (PStr [])];
     Tokenize (lit "user" ++ [NL] ++ lit "Hi" ++ [NL] ++ lit "assistant" ++ [NL]);
     InputsTo [1; 2; 3]%Z;
     PrintJson (error_response
                  (lit "'>' not supported between instances of 'str' and 'int'"))].
Proof. vm_compute. reflexivity. Qed.

(** ** The response extractor *)

(** C2. The extractor returns what follows the last occurrence of
    ["assistant\n"], stripped of leading and trailing whitespace, when that
    marker occurs; else what follows the last occurrence of ["assistant"],
    stripped, when that occurs; else the text itself, unchanged.  A marker
    that occurs has a last occurrence, stripping removes a run of
    whitespace at each end and nothing else, and a text that ends in
    ["assistant\nHello there"] gives ["Hello there"]. *)
Theorem extract_response_spec :
  (forall t pre post,
     last_occurrence marker_nl t pre post -> extract_response t = py_strip post) /\
  (forall t pre post,
     ~ occurs marker_nl t -> last_occurrence marker t pre post ->
     extract_response t = py_strip post) /\
  (forall t, ~ occurs marker t -> extract_response t = t) /\
  (forall sep t, occurs sep t -> exists pre post, last_occurrence sep t pre post) /\
  (forall t,
     (exists l r, t = l ++ py_strip t ++ r /\ whitespace l /\ whitespace r) /\
     (forall c u, py_strip t = c :: u -> isspace c = false) /\
     (forall u c, py_strip t = u ++ [c] -> isspace c = false)) /\
  (forall p,
     extract_response (p ++ lit "assistant" ++ [NL] ++ lit "Hello there")
     = lit "Hello there").
Proof.
  split; [exact extract_after_marker_nl|].
  split; [exact extract_after_marker|].
  split; [exact extract_no_marker|].
  split; [exact occurs_last_occurrence|].
  split; [exact py_strip_spec|].
  intros p.
  replace (p ++ lit "assistant" ++ [NL] ++ lit "Hello there")
    with (p ++ marker_nl ++ lit "Hello there")
    by (unfold marker_nl; now rewrite <- app_assoc).
  rewrite (extract_after_marker_nl _ _ _ (hello_last_occurrence p)).
  vm_compute. reflexivity.
Qed.

(** The three cases on concrete texts. *)
Example extract_after_newline_marker :
  extract_response (lit "system" ++ [NL] ++ lit "You are a helpful assistant." ++ [NL]
                        ++ lit "user" ++ [NL] ++ lit "Hi" ++ [NL]
                        ++ lit "assistant" ++ [NL] ++ lit "  Hello there " ++ [NL])
  = lit "Hello there".
Proof. vm_compute. reflexivity. Qed.

Example extract_after_bare_marker :
  extract_response (lit "user: Hi assistant: Hello there ") = lit ": Hello there".
Proof. vm_compute. reflexivity. Qed.

Example extract_without_marker :
  extract_response (lit "  Hello there ") = lit "  Hello there ".
Proof. vm_compute. reflexivity. Qed.

(** ** The protocol *)

(** C3. A [generate] command that arrives while no model is held is
    answered with exactly [{"error": "Model not loaded"}]: nothing of the
    backend is called, [generate] is not run, the server is unchanged, and
    the loop goes on with the next line. *)
Theorem generate_before_load py b line d self :
  parses_to py line (PDict d) ->
  command_of d = PStr (lit "generate") ->
  model self = None ->
  process_line py b line self
  = (self, [PrintJson (error_response (lit "Model not loaded"))], Ok Continue) /\
  forall rest,
    serve py ((line, b) :: rest) self
    = (state_of (serve py rest self),
       PrintJson (error_response (lit "Model not loaded")) :: trace_of (serve py rest self),
       result_of (serve py rest self)).
Proof.
  intros Hp Hc Hm.
  pose proof (process_line_generate_unloaded py b line d self Hp Hc Hm) as H.
  split; [exact H|]. intros rest.
  now rewrite (serve_continue py line b rest self _ _ H).
Qed.

Lemma generate_before_load_witness :
  process_line example_py backend_ok line_generate_hi (init default_model_id true)
  = (init default_model_id true,
     [PrintJson (error_response (lit "Model not loaded"))], Ok Continue) /\
  forall rest,
    serve example_py ((line_generate_hi, backend_ok) :: rest) (init default_model_id true)
    = (state_of (serve example_py rest (init default_model_id true)),
       PrintJson (error_response (lit "Model not loaded"))
         :: trace_of (serve example_py rest (init default_model_id true)),
       result_of (serve example_py rest (init default_model_id true))).
Proof.
  apply (generate_before_load example_py backend_ok line_generate_hi
           [(lit "command", PStr (lit "generate")); (lit "prompt", PStr (lit "Hi"))]
           (init default_model_id true)).
  - parse_example.
  - reflexivity.
  - reflexivity.
Defined.

(** C4, at the input on which the program departs from it.  The model is
    constructed and moving it to the CPU fails: [load_model] answers
    ["failed"], and the [test] that follows reports [model_loaded: true]
    all the same, since the model assigned before the failure is kept. *)
Theorem failed_load_reports_model_loaded :
  main example_py default_model_id
       [(line_command "load_model", backend_move_fails);
        (line_command "test", backend_ok)]
  = (Server default_model_id true (Some 2) (Some 1) (Some Cpu),
     [PrintText (lit "READY");
      CudaIsAvailable;
      TokenizerFromPretrained default_model_id true;
      ModelFromPretrained default_model_id Cpu true;
      ModelTo Cpu;
      PrintJson (status_response (lit "failed"));
      PrintJson (test_response true)],
     Ok tt).
Proof. vm_compute. reflexivity. Qed.

(** What holds of [model_loaded] on every run: it is false when the
    process starts, only a [load_model] command changes it, a successful
    one makes it true, and once true it stays true. *)
Lemma model_loaded_lifecycle py :
  (forall mid, model_loaded (init mid true) = false) /\
  (forall b line self,
     model_loaded (state_of (process_line py b line self)) <> model_loaded self ->
     exists d, parses_to py line (PDict d) /\ command_of d = PStr (lit "load_model")) /\
  (forall b line d self,
     parses_to py line (PDict d) -> command_of d = PStr (lit "load_model") ->
     loads b = true ->
     model_loaded (state_of (process_line py b line self)) = true) /\
  (forall inputs self,
     model_loaded self = true ->
     model_loaded (state_of (serve py inputs self)) = true).
Proof.
  split; [reflexivity|]. split; [|split].
  - intros b line self H.
    destruct (process_line_changes_state py b line self) as (d & Hp & Hc & _);
      [congruence | now exists d].
  - intros b line d self Hp Hc Hl.
    rewrite (process_line_load_model py b line d self Hp Hc). cbn [state_of fst].
    apply load_model_success_loaded. now rewrite load_outcome_loads.
  - intros inputs self. apply serve_keeps_model.
Qed.

(** ** The [test] command *)

Lemma process_line_model_kept py b line self :
  (forall d, parses_to py line (PDict d) -> command_of d = PStr (lit "load_model") ->
             constructs_model b = false) ->
  model (state_of (process_line py b line self)) = model self.
Proof.
  intros H.
  destruct (process_line_step py b line self) as [ | | |d Hp Hc| | | | | ];
    cbn [state_of fst]; try reflexivity.
  apply load_model_not_constructed, (H d Hp Hc).
Qed.

Lemma serve_model_kept py inputs : forall self,
  (forall line b d,
     In (line, b) inputs ->
     parses_to py line (PDict d) -> command_of d = PStr (lit "load_model") ->
     constructs_model b = false) ->
  model (state_of (serve py inputs self)) = model self.
Proof.
  induction inputs as [|[line b] rest IH]; intros self H;
    [now rewrite (proj1 (serve_nil py self))|].
  rewrite serve_cons. cbv zeta.
  assert (H1 : model (state_of (process_line py b line self)) = model self).
  { apply process_line_model_kept. intros d. apply (H line b d). now left. }
  destruct (result_of (process_line py b line self)) as [[|]|e];
    cbn [state_of fst]; auto.
  rewrite IH; [exact H1|]. intros l' b' d' Hin. apply (H l' b' d'). now right.
Qed.

(** C5, as the program has it.  [test] changes nothing and calls nothing:
    however often it is sent, the server stays as it is and each answer
    is [{"status": "ok", "model_loaded": b}], [b] telling whether a model
    is held.  On a run from the start, [b] is true as soon as some
    [load_model] has answered ["loaded"], whatever later loads did, and
    false as long as no [load_model] command got as far as constructing a
    model, whatever the other commands were. *)
Theorem test_is_pure py b line d :
  parses_to py line (PDict d) ->
  command_of d = PStr (lit "test") ->
  (forall self n rest,
     serve py (repeat (line, b) n ++ rest) self
     = (state_of (serve py rest self),
        repeat (PrintJson (test_response (model_loaded self))) n
          ++ trace_of (serve py rest self),
        result_of (serve py rest self))) /\
  (forall mid inputs,
     let before := serve py inputs (init mid true) in
     process_line py b line (state_of before)
     = (state_of before,
        [PrintJson (test_response (model_loaded (state_of before)))], Ok Continue) /\
     (In (PrintJson (status_response (lit "loaded"))) (trace_of before) ->
      model_loaded (state_of before) = true) /\
     ((forall line' b' d',
         In (line', b') inputs ->
         parses_to py line' (PDict d') -> command_of d' = PStr (lit "load_model") ->
         constructs_model b' = false) ->
      model_loaded (state_of before) = false)).
Proof.
  intros Hp Hc. split.
  - intros self n rest. induction n as [|n IH]; cbn [repeat app].
    + unfold state_of, trace_of, result_of.
      now destruct (serve py rest self) as [[s t] r].
    + rewrite (serve_continue py line b _ self _ _
                 (process_line_test py b line d self Hp Hc)), IH.
      reflexivity.
  - intros mid inputs before. split; [|split].
    + now apply process_line_test with (d := d).
    + apply serve_prints_loaded.
    + intros H. unfold model_loaded, before.
      now rewrite (serve_model_kept py inputs (init mid true) H).
Qed.

Lemma test_is_pure_witness :
  (forall self n rest,
     serve example_py (repeat (line_command "test", backend_ok) n ++ rest) self
     = (state_of (serve example_py rest self),
        repeat (PrintJson (test_response (model_loaded self))) n
          ++ trace_of (serve example_py rest self),
        result_of (serve example_py rest self))) /\
  (forall mid inputs,
     let before := serve example_py inputs (init mid true) in
     process_line example_py backend_ok (line_command "test") (state_of before)
     = (state_of before,
        [PrintJson (test_response (model_loaded (state_of before)))], Ok Continue) /\
     (In (PrintJson (status_response (lit "loaded"))) (trace_of before) ->
      model_loaded (state_of before) = true) /\
     ((forall line' b' d',
         In (line', b') inputs ->
         parses_to example_py line' (PDict d') ->
         command_of d' = PStr (lit "load_model") ->
         constructs_model b' = false) ->
      model_loaded (state_of before) = false)).
Proof.
  apply (test_is_pure example_py backend_ok (line_command "test")
           [(lit "command", PStr (lit "test"))]).
  - parse_example.
  - reflexivity.
Defined.

(** The [test] commands of a run on a backend that works report
    [model_loaded: false] until a load is asked for. *)
Example test_before_any_load :
  trace_of (main example_py default_model_id
              [(line_command "test", backend_ok); (line_generate_hi, backend_ok);
               (line_command "test", backend_ok)])
  = [PrintText (lit "READY");
     PrintJson (test_response false);
     PrintJson (error_response (lit "Model not loaded"));
     PrintJson (test_response false)].
Proof. vm_compute. reflexivity. Qed.

(** C5 as it is stated fails: a load that succeeds, then a load that
    fails, then [test].  The most recent [load_model] answered ["failed"]
    and [test] reports [model_loaded: true]. *)
Lemma test_after_failed_reload :
  main example_py default_model_id
       [(line_command "load_model", backend_ok);
        (line_command "load_model", backend_no_tokenizer);
        (line_command "test", backend_ok)]
  = (loaded_server,
     [PrintText (lit "READY");
      CudaIsAvailable;
      TokenizerFromPretrained default_model_id true;
      ModelFromPretrained default_model_id Cpu true;
      ModelTo Cpu;
      PrintJson (status_response (lit "loaded"));
      CudaIsAvailable;
      TokenizerFromPretrained default_model_id true;
      PrintJson (status_response (lit "failed"));
      PrintJson (test_response true)],
     Ok tt).
Proof. vm_compute. reflexivity. Qed.

(** ** Lines that are not a JSON object *)

(** C6, as the program has it.  On a line that is not empty once
    stripped: when [json.loads] raises [JSONDecodeError], the answer is
    [{"error": "Invalid JSON: <details>"}]; when it raises another
    exception (a [RecursionError] on nesting too deep, a [ValueError] on
    an integer with too many digits), the answer is the message of that
    exception, without the prefix; when it returns a value that is not an
    object, the answer is the message of the failed call of [get],
    [{"error": "'<type>' object has no attribute 'get'"}].  In every
    case nothing else happens and the loop goes on. *)
Theorem malformed_line_is_reported py b line self :
  py_strip line <> [] ->
  (forall e,
     json_loads py (py_strip line) = Raise e -> exn_cls e = JSONDecodeError ->
     process_line py b line self
     = (self, [PrintJson (error_response (lit "Invalid JSON: " ++ exn_msg e))],
        Ok Continue)) /\
  (forall e,
     json_loads py (py_strip line) = Raise e -> exn_cls e <> JSONDecodeError ->
     process_line py b line self
     = (self, [PrintJson (error_response (exn_msg e))], Ok Continue)) /\
  (forall v,
     json_loads py (py_strip line) = Ok v -> (forall d, v <> PDict d) ->
     process_line py b line self
     = (self,
        [PrintJson (error_response
                      (lit "'" ++ type_name v ++ lit "' object has no attribute 'get'"))],
        Ok Continue)) /\
  ((forall d, json_loads py (py_strip line) <> Ok (PDict d)) ->
   exists msg,
     process_line py b line self = (self, [PrintJson (error_response msg)], Ok Continue) /\
     forall rest,
       serve py ((line, b) :: rest) self
       = (state_of (serve py rest self),
          PrintJson (error_response msg) :: trace_of (serve py rest self),
          result_of (serve py rest self))).
Proof.
  intros Hne.
  assert (H0 : forall e,
             json_loads py (py_strip line) = Raise e ->
             process_line py b line self
             = (self, [PrintJson (error_response (handler_message e))], Ok Continue))
    by (intros; now apply process_line_loads_raises).
  assert (H2 : forall v,
             json_loads py (py_strip line) = Ok v -> (forall d, v <> PDict d) ->
             process_line py b line self
             = (self,
                [PrintJson (error_response
                              (lit "'" ++ type_name v
                                   ++ lit "' object has no attribute 'get'"))],
                Ok Continue))
    by (intros; apply process_line_not_dict; [now split | assumption]).
  split; [|split; [|split; [exact H2|]]].
  - intros e He Hc. rewrite (H0 e He). unfold handler_message. now rewrite Hc.
  - intros e He Hc. rewrite (H0 e He). unfold handler_message.
    destruct (exn_cls e); congruence.
  - intros Hno. destruct (json_loads py (py_strip line)) as [v|e] eqn:E.
    + assert (Hv : forall d, v <> PDict d) by (intros d ->; now apply (Hno d)).
      eexists. split; [now apply H2|]. intros rest.
      now rewrite (serve_continue py line b rest self _ _ (H2 _ eq_refl Hv)).
    + eexists. split; [now apply H0|]. intros rest.
      now rewrite (serve_continue py line b rest self _ _ (H0 _ eq_refl)).
Qed.

Lemma malformed_line_is_reported_witness :
  (forall e,
     json_loads example_py (py_strip (lit "not json")) = Raise e ->
     exn_cls e = JSONDecodeError ->
     process_line example_py backend_ok (lit "not json") loaded_server
     = (loaded_server,
        [PrintJson (error_response (lit "Invalid JSON: " ++ exn_msg e))], Ok Continue)) /\
  (forall e,
     json_loads example_py (py_strip (lit "not json")) = Raise e ->
     exn_cls e <> JSONDecodeError ->
     process_line example_py backend_ok (lit "not json") loaded_server
     = (loaded_server, [PrintJson (error_response (exn_msg e))], Ok Continue)) /\
  (forall v,
     json_loads example_py (py_strip (lit "not json")) = Ok v ->
     (forall d, v <> PDict d) ->
     process_line example_py backend_ok (lit "not json") loaded_server
     = (loaded_server,
        [PrintJson (error_response
                      (lit "'" ++ type_name v ++ lit "' object has no attribute 'get'"))],
        Ok Continue)) /\
  ((forall d, json_loads example_py (py_strip (lit "not json")) <> Ok (PDict d)) ->
   exists msg,
     process_line example_py backend_ok (lit "not json") loaded_server
     = (loaded_server, [PrintJson (error_response msg)], Ok Continue) /\
     forall rest,
       serve example_py ((lit "not json", backend_ok) :: rest) loaded_server
       = (state_of (serve example_py rest loaded_server),
          PrintJson (error_response msg) :: trace_of (serve example_py rest loaded_server),
          result_of (serve example_py rest loaded_server))).
Proof.
  apply (malformed_line_is_reported example_py backend_ok (lit "not json") loaded_server).
  vm_compute. discriminate.
Defined.

(** The answer to the line [not json]. *)
Example not_json_is_invalid_json :
  process_line example_py backend_ok (lit "not json") loaded_server
  = (loaded_server,
     [PrintJson (error_response
                   (lit "Invalid JSON: Expecting value: line 1 column 1 (char 0)"))],
     Ok Continue).
Proof. vm_compute. reflexivity. Qed.

(** A runtime whose [json.loads] gives up with a [RecursionError], as
    CPython does on a long run of opening brackets. *)
Definition example_py_too_deep (msg : pystr) : python :=
  Python (fun _ => lit "?") (fun _ => Raise (Exn RecursionError msg)) None.

(** Such a line is answered with the message of that error alone. *)
Example recursion_error_has_no_prefix line msg :
  py_strip line <> [] ->
  process_line (example_py_too_deep msg) backend_ok line loaded_server
  = (loaded_server, [PrintJson (error_response msg)], Ok Continue).
Proof.
  intros Hne.
  now rewrite (process_line_loads_raises (example_py_too_deep msg) backend_ok line
                 loaded_server (Exn RecursionError msg) Hne eq_refl).
Qed.

(** C6 as it is stated fails on the line [[]]: it is valid JSON and not
    an object, and the answer is not of the form
    [{"error": "Invalid JSON: ..."}]. *)
Lemma array_line_is_not_invalid_json :
  json_loads example_py (py_strip (lit "[]")) = Ok (PList []) /\
  process_line example_py backend_ok (lit "[]") loaded_server
  = (loaded_server,
     [PrintJson (error_response (lit "'list' object has no attribute 'get'"))],
     Ok Continue) /\
  forall details,
    trace_of (process_line example_py backend_ok (lit "[]") loaded_server)
    <> [PrintJson (error_response (lit "Invalid JSON: " ++ details))].
Proof.
  split; [reflexivity|]. split; [vm_compute; reflexivity|].
  intros details H. vm_compute in H. discriminate.
Qed.

(** A blank line is skipped without an answer. *)
Example blank_line_is_skipped :
  process_line example_py backend_ok (lit "   ") loaded_server
  = (loaded_server, [], Ok Continue).
Proof. reflexivity. Qed.

(** ** Failures of [generate] *)

(** C7. When [generate] raises after the check that a model is held,
    whatever statement of it raised, the process prints exactly one
    answer, [{"error": "<message>"}] with the message of the exception,
    after the backend calls made so far; the server is unchanged and the
    loop goes on with the next line. *)
Theorem generate_failure_is_reported py b line d self h e :
  parses_to py line (PDict d) ->
  command_of d = PStr (lit "generate") ->
  model self = Some h ->
  result_of (generate_of py b d self) = Raise e ->
  forallb is_backend_call (trace_of (generate_of py b d self)) = true /\
  process_line py b line self
  = (self,
     trace_of (generate_of py b d self) ++ [PrintJson (error_response (exn_msg e))],
     Ok Continue) /\
  forall rest,
    serve py ((line, b) :: rest) self
    = (state_of (serve py rest self),
       (trace_of (generate_of py b d self) ++ [PrintJson (error_response (exn_msg e))])
         ++ trace_of (serve py rest self),
       result_of (serve py rest self)).
Proof.
  intros Hp Hc Hm He.
  pose proof (process_line_generate py b line d self h Hp Hc Hm) as H.
  rewrite He in H.
  split; [apply generate_of_calls_only|]. split; [exact H|].
  intros rest. now rewrite (serve_continue py line b rest self _ _ H).
Qed.

Lemma generate_failure_is_reported_witness :
  forallb is_backend_call
    (trace_of (generate_of example_py backend_generate_fails
                 [(lit "command", PStr (lit "generate")); (lit "prompt", PStr (lit "Hi"))]
                 loaded_server)) = true /\
  process_line example_py backend_generate_fails line_generate_hi loaded_server
  = (loaded_server,
     trace_of (generate_of example_py backend_generate_fails
                 [(lit "command", PStr (lit "generate")); (lit "prompt", PStr (lit "Hi"))]
                 loaded_server)
       ++ [PrintJson (error_response
                        (exn_msg (Exn BackendError (lit "out of memory"))))],
     Ok Continue) /\
  forall rest,
    serve example_py ((line_generate_hi, backend_generate_fails) :: rest) loaded_server
    = (state_of (serve example_py rest loaded_server),
       (trace_of (generate_of example_py backend_generate_fails
                    [(lit "command", PStr (lit "generate"));
                     (lit "prompt", PStr (lit "Hi"))]
                    loaded_server)
          ++ [PrintJson (error_response
                           (exn_msg (Exn BackendError (lit "out of memory"))))])
         ++ trace_of (serve example_py rest loaded_server),
       result_of (serve example_py rest loaded_server)).
Proof.
  apply (generate_failure_is_reported example_py backend_generate_fails line_generate_hi
           [(lit "command", PStr (lit "generate")); (lit "prompt", PStr (lit "Hi"))]
           loaded_server 3 (Exn BackendError (lit "out of memory"))).
  - parse_example.
  - reflexivity.
  - reflexivity.
  - vm_compute. reflexivity.
Defined.

(** The statements of [generate] that can raise: building the
    conversation, each call into the backend, the comparison of the
    temperature, and decoding. *)
Lemma generate_raises py b p tl h mt temp self tok m :
  tokenizer self = Some tok -> model self = Some m ->
  (forall e, build_messages py p tl h = Raise e ->
     generate py b p tl h mt temp self = (self, [], Raise e)) /\
  (forall msgs msg,
     build_messages py p tl h = Ok msgs ->
     apply_chat_template b msgs = Fails msg ->
     generate py b p tl h mt temp self
     = (self, [ApplyChatTemplate msgs], Raise (Exn BackendError msg))) /\
  (forall msgs text enc inputs ds msg,
     build_messages py p tl h = Ok msgs ->
     apply_chat_template b msgs = Returns text ->
     tokenize b text = Returns enc ->
     inputs_to b enc = Returns inputs ->
     py_gt_zero temp = Ok ds ->
     model_generate b inputs mt temp ds = Fails msg ->
     generate py b p tl h mt temp self
     = (self,
        [ApplyChatTemplate msgs; Tokenize text; InputsTo enc;
         ModelGenerate inputs mt temp ds],
        Raise (Exn BackendError msg))) /\
  (forall msgs text enc inputs ds out msg,
     build_messages py p tl h = Ok msgs ->
     apply_chat_template b msgs = Returns text ->
     tokenize b text = Returns enc ->
     inputs_to b enc = Returns inputs ->
     py_gt_zero temp = Ok ds ->
     model_generate b inputs mt temp ds = Returns out ->
     decode b out = Fails msg ->
     generate py b p tl h mt temp self
     = (self,
        [ApplyChatTemplate msgs; Tokenize text; InputsTo enc;
         ModelGenerate inputs mt temp ds; Decode out],
        Raise (Exn BackendError msg))).
Proof.
  intros Ht Hm.
  unfold generate, try_except, bind, lift, attribute, get_self, ret, raise, call.
  repeat split; intros;
    repeat match goal with
           | H : _ = _ |- _ => rewrite H; clear H; cbn [fst snd app]
           end;
    reflexivity.
Qed.

(** ** A request without a prompt *)

Lemma dict_get_absent d key default :
  (forall k v, In (k, v) d -> k <> key) -> dict_get d key default = default.
Proof.
  induction d as [|[k v] d IH]; intros H; cbn [dict_get]; [reflexivity|].
  destruct (str_eqb k key) eqn:E.
  - apply str_eqb_eq in E. elim (H k v); [now left | assumption].
  - apply IH. intros k' v' Hin. apply (H k' v'). now right.
Qed.

(** C10. A [generate] command whose object has no [prompt] field is not
    rejected: it is processed as the same request with the empty string
    as its prompt.
    The conversation that is built ends with the user message of empty
    content, and when the backend answers every call the reply is printed
    with the status ["success"]. *)
Theorem missing_prompt_is_empty py b line d self h :
  parses_to py line (PDict d) ->
  command_of d = PStr (lit "generate") ->
  model self = Some h ->
  (forall k v, In (k, v) d -> k <> lit "prompt") ->
  let target_lang := dict_get d (lit "target_lang") PNone in
  let history := dict_get d (lit "history") (PList []) in
  let max_tokens := dict_get d (lit "max_tokens") (PInt 128) in
  let temperature := dict_get d (lit "temperature") (PFloat float_0_7) in
  let run := generate py b (PStr []) target_lang history max_tokens temperature self in
  process_line py b line self
  = (self,
     trace_of run
       ++ [PrintJson match result_of run with
                     | Ok text => success_response text
                     | Raise e => error_response (exn_msg e)
                     end],
     Ok Continue) /\
  (forall msgs,
     build_messages py (PStr []) target_lang history = Ok msgs ->
     last msgs (Message [] PNone) = Message (lit "user") (PStr []) /\
     forall tok, tokenizer self = Some tok ->
       exists rest, trace_of run = ApplyChatTemplate msgs :: rest) /\
  (forall msgs tok text enc inputs ds out resp,
     build_messages py (PStr []) target_lang history = Ok msgs ->
     tokenizer self = Some tok ->
     apply_chat_template b msgs = Returns text ->
     tokenize b text = Returns enc ->
     inputs_to b enc = Returns inputs ->
     py_gt_zero temperature = Ok ds ->
     model_generate b inputs max_tokens temperature ds = Returns out ->
     decode b out = Returns resp ->
     process_line py b line self
     = (self,
        [ApplyChatTemplate msgs; Tokenize text; InputsTo enc;
         ModelGenerate inputs max_tokens temperature ds; Decode out;
         PrintJson (success_response (extract_response resp))],
        Ok Continue)).
Proof.
  intros Hp Hc Hm Hno target_lang history max_tokens temperature run.
  assert (Hrun : generate_of py b d self = run).
  { unfold generate_of, run. now rewrite (dict_get_absent d _ _ Hno). }
  pose proof (process_line_generate py b line d self h Hp Hc Hm) as H.
  rewrite Hrun in H.
  split; [exact H|]. split.
  - intros msgs Hb. split.
    + apply build_messages_shape in Hb as [items ->].
      change (system_message py target_lang
                :: history_messages 0 items ++ [Message (lit "user") (PStr [])])
        with ((system_message py target_lang :: history_messages 0 items)
                ++ [Message (lit "user") (PStr [])]).
      apply last_last.
    + intros tok Ht. now apply generate_applies_template with (tok := tok).
  - intros msgs tok text enc inputs ds out resp Hb Ht H1 H2 H3 H4 H5 H6.
    rewrite H. unfold run.
    rewrite (generate_success py b (PStr []) target_lang history max_tokens temperature
               self msgs tok h text enc inputs ds out resp Hb Ht Hm H1 H2 H3 H4 H5 H6).
    reflexivity.
Qed.

Lemma missing_prompt_is_empty_witness :
  process_line example_py backend_ok (line_command "generate") loaded_server
  = (loaded_server,
     [ApplyChatTemplate
        [Message (lit "system") (PStr default_system_content);
         Message (lit "user") (PStr [])];
      Tokenize (lit "user" ++ [NL] ++ lit "Hi" ++ [NL] ++ lit "assistant" ++ [NL]);
      InputsTo [1; 2; 3]%Z;
      ModelGenerate [1; 2; 3]%Z (PInt 128) (PFloat float_0_7) true;
      Decode [1; 2; 3; 4; 5]%Z;
      PrintJson (success_response (extract_response
                   (lit "user" ++ [NL] ++ lit "Hi" ++ [NL] ++ lit "assistant"
                        ++ [NL] ++ lit "Hello there")))],
     Ok Continue).
Proof.
  assert (Hp : parses_to example_py (line_command "generate")
                 (PDict [(lit "command", PStr (lit "generate"))]))
    by parse_example.
  assert (Hno : forall k v,
             In (k, v) [(lit "command", PStr (lit "generate"))] -> k <> lit "prompt").
  { intros k v [[= <- _]|[]]. vm_compute. discriminate. }
  destruct (missing_prompt_is_empty example_py backend_ok (line_command "generate")
              [(lit "command", PStr (lit "generate"))] loaded_server 3
              Hp eq_refl eq_refl Hno) as (_ & _ & H).
  apply (H _ 1 _ _ _ true _ _); reflexivity.
Defined.

(* ===================================================================== *)
(** * Further properties of the program *)
(* ===================================================================== *)

(** ** Lines that get no answer *)

Lemma lstrip_whitespace t : whitespace t -> lstrip t = [].
Proof.
  induction t as [|c t IH]; intros W; [reflexivity|].
  inversion W as [|? ? Hc Wt]; subst. simpl. rewrite Hc. now apply IH.
Qed.

Lemma serve_skip py line b rest self :
  process_line py b line self = (self, [], Ok Continue) ->
  serve py ((line, b) :: rest) self = serve py rest self.
Proof.
  intros H. rewrite (serve_continue py line b rest self _ _ H).
  unfold state_of, trace_of, result_of.
  now destruct (serve py rest self) as [[s t] r].
Qed.

(** X1. A line made of whitespace only (lines 173-175) is passed over:
    nothing is printed, nothing is called, the server is unchanged, and
    the input that follows is served as if the line were not there. *)
Theorem blank_line_is_ignored py b line self :
  whitespace line ->
  process_line py b line self = (self, [], Ok Continue) /\
  forall rest, serve py ((line, b) :: rest) self = serve py rest self.
Proof.
  intros W.
  assert (H : process_line py b line self = (self, [], Ok Continue)).
  { apply process_line_blank. unfold py_strip.
    now rewrite (lstrip_whitespace line W). }
  split; [exact H|]. intros rest. now apply serve_skip.
Qed.

Lemma blank_line_is_ignored_witness :
  process_line example_py backend_ok (lit "  " ++ [9%N; 13%N; NL]) loaded_server
  = (loaded_server, [], Ok Continue) /\
  forall rest,
    serve example_py ((lit "  " ++ [9%N; 13%N; NL], backend_ok) :: rest) loaded_server
    = serve example_py rest loaded_server.
Proof.
  apply (blank_line_is_ignored example_py backend_ok (lit "  " ++ [9%N; 13%N; NL])
           loaded_server).
  repeat constructor.
Defined.

(** X2. A [shutdown] command (lines 216-218) ends the loop at once: it
    gets no answer, the server is left as it is, and none of the lines
    after it is read. *)
Theorem shutdown_ends_loop py b line d self rest :
  parses_to py line (PDict d) ->
  command_of d = PStr (lit "shutdown") ->
  serve py ((line, b) :: rest) self = (self, [], Ok tt).
Proof.
  intros Hp Hc. rewrite serve_cons.
  now rewrite (process_line_shutdown py b line d self Hp Hc).
Qed.

Lemma shutdown_ends_loop_witness :
  serve example_py
        [(line_command "shutdown", backend_ok); (line_command "test", backend_ok);
         (line_command "load_model", backend_ok)]
        loaded_server
  = (loaded_server, [], Ok tt).
Proof.
  apply (shutdown_ends_loop example_py backend_ok (line_command "shutdown")
           [(lit "command", PStr (lit "shutdown"))]).
  - parse_example.
  - reflexivity.
Defined.

(** ** Commands the program does not know *)

(** Two more lines for the examples: a command the program does not
    know, and the empty object. *)
Definition line_reload : pystr := line_command "reload".

Definition example_loads_more (line : pystr) : result pyval :=
  if str_eqb line line_reload then Ok (PDict [(lit "command", PStr (lit "reload"))])
  else if str_eqb line (lit "{}") then Ok (PDict [])
  else example_loads line.

Definition example_py_more : python :=
  Python (fun _ => lit "?") example_loads_more None.

Lemma py_eq_str_false s c : s <> c -> py_eq_str (PStr s) c = false.
Proof.
  intros H. simpl. destruct (str_eqb s c) eqn:E; [|reflexivity].
  now apply str_eqb_eq in E.
Qed.

(** X3. An object with no [command] field is answered with
    [{"error": "Unknown command: None"}], and an object whose command is
    a string other than the four known ones with that string after
    ["Unknown command: "] (lines 178 and 220-223); the server is
    unchanged and the loop goes on. *)
Theorem unknown_command_is_reported py b line d self :
  parses_to py line (PDict d) ->
  ((forall k v, In (k, v) d -> k <> lit "command") ->
   process_line py b line self
   = (self, [PrintJson (error_response (lit "Unknown command: None"))], Ok Continue)) /\
  (forall s,
     command_of d = PStr s ->
     s <> lit "load_model" -> s <> lit "generate" ->
     s <> lit "test" -> s <> lit "shutdown" ->
     process_line py b line self
     = (self, [PrintJson (error_response (lit "Unknown command: " ++ s))], Ok Continue)).
Proof.
  intros Hp. split.
  - intros Hno.
    assert (Hc : command_of d = PNone) by (now apply dict_get_absent).
    rewrite (process_line_unknown py b line d self Hp); rewrite Hc; reflexivity.
  - intros s Hc H1 H2 H3 H4.
    rewrite (process_line_unknown py b line d self Hp); rewrite Hc;
      try (now apply py_eq_str_false).
    reflexivity.
Qed.

Lemma unknown_command_is_reported_witness :
  ((forall k v, In (k, v) [(lit "command", PStr (lit "reload"))] -> k <> lit "command") ->
   process_line example_py_more backend_ok line_reload loaded_server
   = (loaded_server,
      [PrintJson (error_response (lit "Unknown command: None"))], Ok Continue)) /\
  (forall s,
     command_of [(lit "command", PStr (lit "reload"))] = PStr s ->
     s <> lit "load_model" -> s <> lit "generate" ->
     s <> lit "test" -> s <> lit "shutdown" ->
     process_line example_py_more backend_ok line_reload loaded_server
     = (loaded_server,
        [PrintJson (error_response (lit "Unknown command: " ++ s))], Ok Continue)).
Proof.
  apply (unknown_command_is_reported example_py_more backend_ok line_reload
           [(lit "command", PStr (lit "reload"))] loaded_server).
  parse_example.
Defined.

(** The two cases on the lines of the examples. *)
Example unknown_command_reload :
  process_line example_py_more backend_ok line_reload loaded_server
  = (loaded_server,
     [PrintJson (error_response (lit "Unknown command: reload"))], Ok Continue).
Proof. vm_compute. reflexivity. Qed.

Example unknown_command_empty_object :
  process_line example_py_more backend_ok (lit "{}") loaded_server
  = (loaded_server,
     [PrintJson (error_response (lit "Unknown command: None"))], Ok Continue).
Proof. vm_compute. reflexivity. Qed.

(** ** One answer per command *)







(** Standard input that delivers one line and then bytes that cannot be
    decoded: the line is answered, then [main] ends on the error of the
    read. *)
Definition undecodable : exn :=
  Exn UnicodeDecodeError
      (lit "'utf-8' codec can't decode byte 0xff in position 0: invalid start byte").

Definition example_py_bad_bytes : python :=
  Python (fun _ => lit "?") example_loads (Some undecodable).

Example undecodable_input_ends_main :
  main example_py_bad_bytes default_model_id [(line_command "test", backend_ok)]
  = (init default_model_id true,
     [PrintText (lit "READY"); PrintJson (test_response false)],
     Raise undecodable).
Proof. vm_compute. reflexivity. Qed.

(** ** What touches the backend and the server *)

(** X6. The backend is called for two commands only: [load_model], and
    [generate] once a model is held.  No other line, [test] among them,
    makes any call into the tokenizer or the model. *)
Theorem backend_called_only_to_load_or_generate py b line self :
  existsb is_backend_call (trace_of (process_line py b line self)) = true ->
  exists d,
    parses_to py line (PDict d) /\
    (command_of d = PStr (lit "load_model") \/
     command_of d = PStr (lit "generate") /\ exists h, model self = Some h).
Proof.
  destruct (process_line_step py b line self) as
    [ | | |d Hp Hc| |d h Hp Hc Hm| | | ];
    cbn [trace_of fst snd existsb is_backend_call orb]; try discriminate.
  - intros _. exists d. split; [exact Hp | now left].
  - intros _. exists d. split; [exact Hp|]. right. split; [exact Hc | now exists h].
Qed.

Lemma backend_called_only_to_load_or_generate_witness :
  exists d,
    parses_to example_py (line_command "load_model") (PDict d) /\
    (command_of d = PStr (lit "load_model") \/
     command_of d = PStr (lit "generate") /\
     exists h, model (init default_model_id true) = Some h).
Proof.
  apply (backend_called_only_to_load_or_generate example_py backend_ok
           (line_command "load_model") (init default_model_id true)).
  vm_compute. reflexivity.
Defined.

(** X7. [generate] (lines 71-127) never assigns a field of the server,
    whether it returns or raises, so nothing of a conversation outlives
    its request; and a line that leaves the server different from what it
    was is a [load_model] command. *)
Theorem only_load_model_changes_server py :
  (forall b prompt target_lang history max_new_tokens temperature self,
     state_of (generate py b prompt target_lang history max_new_tokens temperature self)
     = self) /\
  (forall b line self,
     state_of (process_line py b line self) <> self ->
     exists d, parses_to py line (PDict d) /\ command_of d = PStr (lit "load_model")).
Proof.
  split; [intros; apply generate_state|].
  intros b line self H.
  destruct (process_line_changes_state py b line self H) as (d & Hp & Hc & _).
  now exists d.
Qed.

(** ** Loading *)

Ltac unfold_load_model :=
  unfold load_model, try_except, bind, call, get_self, set_device, set_tokenizer,
    set_model, set_self, ret.

(** X8. What a successful [load_model] (lines 34-65) leaves in the
    server.  With a GPU the model is the object [from_pretrained]
    returned and [model.to] is not called; without one the model is what
    [model.to("cpu")] returned.  In both cases the tokenizer is requested
    before the model, both with the server's model id and with
    [local_files_only] set to [use_cache]. *)
Theorem load_model_success b self :
  (forall tok m,
     cuda_is_available b = Returns true ->
     tokenizer_from_pretrained b = Returns tok ->
     model_from_pretrained b = Returns m ->
     load_model b self
     = (Server (model_id self) (use_cache self) (Some m) (Some tok) (Some Cuda),
        [CudaIsAvailable;
         TokenizerFromPretrained (model_id self) (use_cache self);
         ModelFromPretrained (model_id self) Cuda (use_cache self)],
        Ok true)) /\
  (forall tok m m',
     cuda_is_available b = Returns false ->
     tokenizer_from_pretrained b = Returns tok ->
     model_from_pretrained b = Returns m ->
     model_to b = Returns m' ->
     load_model b self
     = (Server (model_id self) (use_cache self) (Some m') (Some tok) (Some Cpu),
        [CudaIsAvailable;
         TokenizerFromPretrained (model_id self) (use_cache self);
         ModelFromPretrained (model_id self) Cpu (use_cache self);
         ModelTo Cpu],
        Ok true)).
Proof.
  split; intros; unfold_load_model;
    repeat match goal with
           | H : _ = _ |- _ => rewrite H; clear H; cbn [fst snd app]
           end;
    reflexivity.
Qed.

(** X9. A [load_model] that fails (lines 67-69) returns [False] and
    keeps every assignment made before the failing call.  When the
    tokenizer cannot be loaded the model and the tokenizer held before
    are kept; when the model cannot be loaded the new tokenizer stays
    beside the model held before; when the move to the CPU fails the
    model just constructed stays. *)
Theorem load_model_failure b self :
  (forall msg,
     cuda_is_available b = Fails msg ->
     load_model b self = (self, [CudaIsAvailable], Ok false)) /\
  (forall gpu msg,
     cuda_is_available b = Returns gpu ->
     tokenizer_from_pretrained b = Fails msg ->
     load_model b self
     = (Server (model_id self) (use_cache self) (model self) (tokenizer self)
               (Some (if gpu then Cuda else Cpu)),
        [CudaIsAvailable;
         TokenizerFromPretrained (model_id self) (use_cache self)],
        Ok false)) /\
  (forall gpu tok msg,
     cuda_is_available b = Returns gpu ->
     tokenizer_from_pretrained b = Returns tok ->
     model_from_pretrained b = Fails msg ->
     load_model b self
     = (Server (model_id self) (use_cache self) (model self) (Some tok)
               (Some (if gpu then Cuda else Cpu)),
        [CudaIsAvailable;
         TokenizerFromPretrained (model_id self) (use_cache self);
         ModelFromPretrained (model_id self) (if gpu then Cuda else Cpu)
                             (use_cache self)],
        Ok false)) /\
  (forall tok m msg,
     cuda_is_available b = Returns false ->
     tokenizer_from_pretrained b = Returns tok ->
     model_from_pretrained b = Returns m ->
     model_to b = Fails msg ->
     load_model b self
     = (Server (model_id self) (use_cache self) (Some m) (Some tok) (Some Cpu),
        [CudaIsAvailable;
         TokenizerFromPretrained (model_id self) (use_cache self);
         ModelFromPretrained (model_id self) Cpu (use_cache self);
         ModelTo Cpu],
        Ok false)).
Proof.
  repeat split; intros; unfold_load_model;
    repeat match goal with
           | H : _ = _ |- _ => rewrite H; clear H; cbn [fst snd app]
           end;
    try reflexivity; destruct self; reflexivity.
Qed.

(** X10. The answer to a [load_model] command (lines 180-184) is
    [{"status": "loaded"}] when every call of the load returned and
    [{"status": "failed"}] otherwise, never an [error] object; it is
    printed after the calls of the load, and the loop goes on from the
    server the load left. *)
Theorem load_model_is_answered py b line d self :
  parses_to py line (PDict d) ->
  command_of d = PStr (lit "load_model") ->
  process_line py b line self
  = (state_of (load_model b self),
     trace_of (load_model b self)
       ++ [PrintJson (status_response (if loads b then lit "loaded" else lit "failed"))],
     Ok Continue) /\
  forallb is_backend_call (trace_of (load_model b self)) = true /\
  forall rest,
    serve py ((line, b) :: rest) self
    = (state_of (serve py rest (state_of (load_model b self))),
       (trace_of (load_model b self)
          ++ [PrintJson (status_response
                           (if loads b then lit "loaded" else lit "failed"))])
         ++ trace_of (serve py rest (state_of (load_model b self))),
       result_of (serve py rest (state_of (load_model b self)))).
Proof.
  intros Hp Hc.
  pose proof (process_line_load_model py b line d self Hp Hc) as H.
  rewrite load_outcome_loads in H.
  split; [exact H|]. split; [apply load_model_calls_only|].
  intros rest. now rewrite (serve_continue py line b rest self _ _ H).
Qed.

Lemma load_model_is_answered_witness :
  process_line example_py backend_no_tokenizer (line_command "load_model") loaded_server
  = (state_of (load_model backend_no_tokenizer loaded_server),
     trace_of (load_model backend_no_tokenizer loaded_server)
       ++ [PrintJson (status_response
                        (if loads backend_no_tokenizer then lit "loaded" else lit "failed"))],
     Ok Continue) /\
  forallb is_backend_call (trace_of (load_model backend_no_tokenizer loaded_server)) = true /\
  forall rest,
    serve example_py ((line_command "load_model", backend_no_tokenizer) :: rest)
          loaded_server
    = (state_of (serve example_py rest
                       (state_of (load_model backend_no_tokenizer loaded_server))),
       (trace_of (load_model backend_no_tokenizer loaded_server)
          ++ [PrintJson (status_response
                           (if loads backend_no_tokenizer
                            then lit "loaded" else lit "failed"))])
         ++ trace_of (serve example_py rest
                            (state_of (load_model backend_no_tokenizer loaded_server))),
       result_of (serve example_py rest
                        (state_of (load_model backend_no_tokenizer loaded_server)))).
Proof.
  apply (load_model_is_answered example_py backend_no_tokenizer
           (line_command "load_model") [(lit "command", PStr (lit "load_model"))]
           loaded_server).
  - parse_example.
  - reflexivity.
Defined.

(** A call that loads files is made for the model [mid], with
    [local_files_only] set to [cache]. *)
Definition uses_settings (mid : pystr) (cache : bool) (ev : event) : Prop :=
  match ev with
  | TokenizerFromPretrained m c => m = mid /\ c = cache
  | ModelFromPretrained m _ c => m = mid /\ c = cache
  | _ => True
  end.

Lemma load_model_uses_settings b self :
  Forall (uses_settings (model_id self) (use_cache self)) (trace_of (load_model b self)).
Proof. run_load_model; repeat constructor. Qed.

Lemma generate_uses_settings py b p tl h mt temp self mid cache :
  Forall (uses_settings mid cache) (trace_of (generate py b p tl h mt temp self)).
Proof. run_generate; repeat constructor. Qed.

Lemma process_line_settings py b line self :
  model_id (state_of (process_line py b line self)) = model_id self /\
  use_cache (state_of (process_line py b line self)) = use_cache self.
Proof.
  destruct (process_line_step py b line self); cbn [state_of fst];
    try (split; reflexivity).
  apply load_model_settings.
Qed.

Lemma process_line_uses_settings py b line self :
  Forall (uses_settings (model_id self) (use_cache self))
         (trace_of (process_line py b line self)).
Proof.
  destruct (process_line_step py b line self); cbn [trace_of fst snd];
    repeat constructor;
    apply Forall_app; (split; [|repeat constructor]).
  - apply load_model_uses_settings.
  - apply generate_uses_settings.
Qed.

Lemma serve_uses_settings py inputs : forall self,
  Forall (uses_settings (model_id self) (use_cache self)) (trace_of (serve py inputs self)).
Proof.
  induction inputs as [|[line b] rest IH]; intros self;
    [rewrite (proj1 (proj2 (serve_nil py self))); constructor|].
  rewrite serve_cons. cbv zeta.
  pose proof (process_line_uses_settings py b line self) as H.
  destruct (process_line_settings py b line self) as [Hm Hu].
  destruct (result_of (process_line py b line self)) as [[|]|e];
    cbn [trace_of fst snd]; try exact H.
  apply Forall_app. split; [exact H|].
  rewrite <- Hm, <- Hu. apply IH.
Qed.

(** X11. Over a whole run of [main], every load of a tokenizer or of a
    model asks for the model id the server was created with (line 164)
    and passes [local_files_only=True] (lines 48-59): no command changes
    the model id, and the program never lets the backend fetch files
    that are not in the cache. *)
Theorem loads_use_cache_and_model_id py mid inputs :
  Forall (uses_settings mid true) (trace_of (main py mid inputs)) /\
  model_id (state_of (main py mid inputs)) = mid /\
  use_cache (state_of (main py mid inputs)) = true.
Proof.
  rewrite main_serves. cbn [trace_of state_of fst snd]. split.
  - constructor; [exact I|]. apply (serve_uses_settings py inputs (init mid true)).
  - assert (G : forall l self,
               model_id (state_of (serve py l self)) = model_id self /\
               use_cache (state_of (serve py l self)) = use_cache self).
    { induction l as [|[line b] rest IH]; intros self;
        [now rewrite (proj1 (serve_nil py self))|].
      rewrite serve_cons. cbv zeta.
      destruct (process_line_settings py b line self) as [Hm Hu].
      destruct (result_of (process_line py b line self)) as [[|]|e];
        cbn [state_of fst]; try (now split).
      destruct (IH (state_of (process_line py b line self))) as [Hm' Hu'].
      unfold state_of in *. split; congruence. }
    apply (G inputs (init mid true)).
Qed.

(** X12. On the server any run of [main] ends with, a model is never
    held without a tokenizer: [load_model] assigns the tokenizer before
    the model (lines 48-59) and nothing unsets either, so a [generate]
    that passes the check of line 187 finds a tokenizer. *)
Theorem model_comes_with_tokenizer py mid inputs :
  model (state_of (main py mid inputs)) = None \/
  exists tok, tokenizer (state_of (main py mid inputs)) = Some tok.
Proof.
  rewrite main_serves. cbn [state_of fst].
  fold (state_of (serve py inputs (init mid true))).
  assert (H : has_tokenizer (state_of (serve py inputs (init mid true)))).
  { apply serve_has_tokenizer. intros H. elim H. reflexivity. }
  unfold has_tokenizer in H.
  destruct (model (state_of (serve py inputs (init mid true)))) as [m|];
    [right | left; reflexivity].
  destruct (tokenizer (state_of (serve py inputs (init mid true)))) as [tok|].
  - now exists tok.
  - exfalso. apply H; [discriminate | reflexivity].
Qed.

(** ** Generation *)

Lemma generate_template_argument py b p tl h mt temp self msgs :
  In (ApplyChatTemplate msgs) (trace_of (generate py b p tl h mt temp self)) ->
  build_messages py p tl h = Ok msgs.
Proof.
  run_generate; cbn [In]; intros H;
    repeat match goal with
           | H : _ \/ _ |- _ => destruct H
           | H : False |- _ => contradiction
           | H : _ = ApplyChatTemplate _ |- _ =>
               first [discriminate H | injection H as <-]
           end;
    reflexivity.
Qed.

(** X13. A [generate] request that gives only its prompt (lines 192-196)
    is run with the defaults: the conversation is the default system
    message followed by the prompt, and the model is asked for at most
    128 new tokens at temperature 0.7, with sampling. *)
Theorem generate_defaults py b line d self h :
  parses_to py line (PDict d) ->
  command_of d = PStr (lit "generate") ->
  model self = Some h ->
  (forall k v, In (k, v) d ->
     k <> lit "target_lang" /\ k <> lit "history" /\
     k <> lit "max_tokens" /\ k <> lit "temperature") ->
  (forall msgs,
     In (ApplyChatTemplate msgs) (trace_of (process_line py b line self)) ->
     msgs = [Message (lit "system") (PStr default_system_content);
             Message (lit "user") (dict_get d (lit "prompt") (PStr []))]) /\
  (forall inputs max_new_tokens temperature do_sample,
     In (ModelGenerate inputs max_new_tokens temperature do_sample)
        (trace_of (process_line py b line self)) ->
     max_new_tokens = PInt 128 /\ temperature = PFloat float_0_7 /\ do_sample = true).
Proof.
  intros Hp Hc Hm Hno.
  assert (Hg : generate_of py b d
               = generate py b (dict_get d (lit "prompt") (PStr [])) PNone (PList [])
                          (PInt 128) (PFloat float_0_7)).
  { unfold generate_of.
    rewrite (dict_get_absent d (lit "target_lang")) by (intros k v Hi; apply (Hno k v Hi)).
    rewrite (dict_get_absent d (lit "history")) by (intros k v Hi; apply (Hno k v Hi)).
    rewrite (dict_get_absent d (lit "max_tokens")) by (intros k v Hi; apply (Hno k v Hi)).
    rewrite (dict_get_absent d (lit "temperature")) by (intros k v Hi; apply (Hno k v Hi)).
    reflexivity. }
  rewrite (process_line_generate py b line d self h Hp Hc Hm), Hg.
  cbn [trace_of fst snd]. split.
  - intros msgs Hin. apply in_app_iff in Hin as [Hin|[Hin|[]]]; [|discriminate].
    apply generate_template_argument in Hin.
    rewrite build_messages_list in Hin. now injection Hin as <-.
  - intros inputs mt temp ds Hin.
    apply in_app_iff in Hin as [Hin|[Hin|[]]]; [|discriminate].
    apply generate_sampling in Hin as (-> & -> & Hs).
    repeat split. now injection Hs as <-.
Qed.

Lemma generate_defaults_witness :
  (forall msgs,
     In (ApplyChatTemplate msgs)
        (trace_of (process_line example_py backend_ok line_generate_hi loaded_server)) ->
     msgs = [Message (lit "system") (PStr default_system_content);
             Message (lit "user")
                     (dict_get [(lit "command", PStr (lit "generate"));
                                (lit "prompt", PStr (lit "Hi"))]
                               (lit "prompt") (PStr []))]) /\
  (forall inputs max_new_tokens temperature do_sample,
     In (ModelGenerate inputs max_new_tokens temperature do_sample)
        (trace_of (process_line example_py backend_ok line_generate_hi loaded_server)) ->
     max_new_tokens = PInt 128 /\ temperature = PFloat float_0_7 /\ do_sample = true).
Proof.
  apply (generate_defaults example_py backend_ok line_generate_hi
           [(lit "command", PStr (lit "generate")); (lit "prompt", PStr (lit "Hi"))]
           loaded_server 3).
  - parse_example.
  - reflexivity.
  - reflexivity.
  - intros k v [[= <- _]|[[= <- _]|[]]]; repeat split; vm_compute; discriminate.
Defined.

(** X14. The history of a request (lines 84-88) is not checked to be a
    list.  A history that Python counts as false ([null], [false], [0],
    an empty string, list or object) is no history at all; a history
    that is true and cannot be iterated (a number other than zero,
    [true]) makes [generate] raise the [TypeError] of the loop before
    anything of the backend is called. *)
Theorem history_need_not_be_a_list py b p tl history mt temp self :
  (py_truthy history = false ->
   build_messages py p tl history
   = Ok [system_message py tl; Message (lit "user") p]) /\
  (forall e,
     py_truthy history = true -> py_iter history = Raise e ->
     generate py b p tl history mt temp self = (self, [], Raise e) /\
     exn_cls e = TypeError /\
     exn_msg e = lit "'" ++ type_name history ++ lit "' object is not iterable").
Proof.
  split.
  - intros H. unfold build_messages. now rewrite H.
  - intros e Ht Hi. split.
    + unfold generate, try_except, bind, lift, raise, build_messages.
      now rewrite Ht, Hi.
    + destruct history; simpl in Hi; try discriminate;
        injection Hi as <-; now split.
Qed.

(** A history that is the number 5. *)
Example history_five :
  generate example_py backend_ok (PStr (lit "Hi")) PNone (PInt 5) (PInt 128)
           (PFloat float_0_7) loaded_server
  = (loaded_server, [],
     Raise (Exn TypeError (lit "'int' object is not iterable"))).
Proof. reflexivity. Qed.

(** The kinds of call [generate] makes into the backend. *)
Inductive call_kind :=
| ChatTemplateCall | TokenizeCall | InputsToCall | GenerateCall | DecodeCall | OtherEvent.

Definition kind_of (ev : event) : call_kind :=
  match ev with
  | ApplyChatTemplate _ => ChatTemplateCall
  | Tokenize _ => TokenizeCall
  | InputsTo _ => InputsToCall
  | ModelGenerate _ _ _ _ => GenerateCall
  | Decode _ => DecodeCall
  | _ => OtherEvent
  end.

(** X15. [generate] (lines 93-114) calls the backend in one fixed order:
    chat template, tokenizer, move of the inputs, generation, decoding.
    It stops at the first statement that raises and makes no call twice;
    in particular a failed generation is not tried again. *)
Theorem generate_calls_in_order py b p tl h mt temp self :
  exists n,
    map kind_of (trace_of (generate py b p tl h mt temp self))
    = firstn n [ChatTemplateCall; TokenizeCall; InputsToCall; GenerateCall; DecodeCall] /\
    (forall text, result_of (generate py b p tl h mt temp self) = Ok text -> n = 5).
Proof.
  run_generate;
    first [ exists 0; split; [reflexivity | discriminate]
          | exists 1; split; [reflexivity | discriminate]
          | exists 2; split; [reflexivity | discriminate]
          | exists 3; split; [reflexivity | discriminate]
          | exists 4; split; [reflexivity | discriminate]
          | exists 5; split; reflexivity ].
Qed.

(** X16. [generate] called on a server that never loaded (the check of
    line 187 keeps [main] from doing so) fails on the missing object:
    without a tokenizer, before any call into the backend; with a
    tokenizer and without a model, once the transcript is tokenized. *)
Theorem generate_without_load py b p tl h mt temp self msgs :
  build_messages py p tl h = Ok msgs ->
  (tokenizer self = None ->
   generate py b p tl h mt temp self
   = (self, [],
      Raise (Exn AttributeError
                 (lit "'NoneType' object has no attribute 'apply_chat_template'")))) /\
  (forall tok text enc,
     tokenizer self = Some tok -> model self = None ->
     apply_chat_template b msgs = Returns text ->
     tokenize b text = Returns enc ->
     generate py b p tl h mt temp self
     = (self, [ApplyChatTemplate msgs; Tokenize text],
        Raise (Exn AttributeError
                   (lit "'NoneType' object has no attribute 'device'")))).
Proof.
  intros Hb. split.
  - intros Ht. unfold generate, try_except, bind, lift, attribute, get_self, raise.
    rewrite Hb. cbn [fst snd app]. rewrite Ht. reflexivity.
  - intros tok text enc Ht Hm H1 H2.
    unfold generate, try_except, bind, lift, attribute, get_self, raise, ret, call.
    rewrite Hb. cbn [fst snd app]. rewrite Ht. cbn [fst snd app].
    rewrite H1. cbn [fst snd app]. rewrite H2. cbn [fst snd app].
    rewrite Hm. reflexivity.
Qed.

Lemma generate_without_load_witness :
  (tokenizer (init default_model_id true) = None ->
   generate example_py backend_ok (PStr (lit "Hi")) PNone (PList []) (PInt 128)
            (PFloat float_0_7) (init default_model_id true)
   = (init default_model_id true, [],
      Raise (Exn AttributeError
                 (lit "'NoneType' object has no attribute 'apply_chat_template'")))) /\
  (forall tok text enc,
     tokenizer (init default_model_id true) = Some tok ->
     model (init default_model_id true) = None ->
     apply_chat_template backend_ok
       [Message (lit "system") (PStr default_system_content);
        Message (lit "user") (PStr (lit "Hi"))] = Returns text ->
     tokenize backend_ok text = Returns enc ->
     generate example_py backend_ok (PStr (lit "Hi")) PNone (PList []) (PInt 128)
              (PFloat float_0_7) (init default_model_id true)
     = (init default_model_id true,
        [ApplyChatTemplate
           [Message (lit "system") (PStr default_system_content);
            Message (lit "user") (PStr (lit "Hi"))];
         Tokenize text],
        Raise (Exn AttributeError
                   (lit "'NoneType' object has no attribute 'device'")))).
Proof.
  apply (generate_without_load example_py backend_ok (PStr (lit "Hi")) PNone (PList [])
           (PInt 128) (PFloat float_0_7) (init default_model_id true)).
  reflexivity.
Defined.

(** X17. A temperature that is not a number (line 109) makes the
    comparison with zero raise: [generate] ends on an exception whatever
    the backend answers, and the model is never asked to generate. *)
Theorem temperature_must_be_a_number py b p tl h mt temp self e :
  py_gt_zero temp = Raise e ->
  (exists e', result_of (generate py b p tl h mt temp self) = Raise e') /\
  (forall inputs mt' temp' ds,
     ~ In (ModelGenerate inputs mt' temp' ds)
          (trace_of (generate py b p tl h mt temp self))) /\
  exn_msg e = lit "'>' not supported between instances of '" ++ type_name temp
                  ++ lit "' and 'int'".
Proof.
  intros He. split; [|split].
  - revert He. run_generate; intros He; try congruence; eexists; reflexivity.
  - intros inputs mt' temp' ds Hin.
    apply generate_sampling in Hin as (_ & _ & Hs). congruence.
  - destruct temp; simpl in He; try discriminate; now injection He as <-.
Qed.

Lemma temperature_must_be_a_number_witness :
  (exists e',
     result_of (generate example_py backend_ok (PStr (lit "Hi")) PNone (PList [])
                         (PInt 128) (PStr (lit "hot")) loaded_server) = Raise e') /\
  (forall inputs mt' temp' ds,
     ~ In (ModelGenerate inputs mt' temp' ds)
          (trace_of (generate example_py backend_ok (PStr (lit "Hi")) PNone (PList [])
                              (PInt 128) (PStr (lit "hot")) loaded_server))) /\
  exn_msg (Exn TypeError
               (lit "'>' not supported between instances of 'str' and 'int'"))
  = lit "'>' not supported between instances of '" ++ type_name (PStr (lit "hot"))
        ++ lit "' and 'int'".
Proof.
  apply (temperature_must_be_a_number example_py backend_ok (PStr (lit "Hi")) PNone
           (PList []) (PInt 128) (PStr (lit "hot")) loaded_server
           (Exn TypeError
                (lit "'>' not supported between instances of 'str' and 'int'"))).
  reflexivity.
Defined.

(** ** The extractor, further *)

Lemma occurs_inside sep u l r : occurs sep u -> occurs sep (l ++ u ++ r).
Proof.
  intros (x & y & ->). exists (l ++ x), (y ++ r).
  now rewrite <- !app_assoc.
Qed.

Lemma nothing_after_last_occurrence sep t pre post :
  sep <> [] -> last_occurrence sep t pre post -> ~ occurs sep post.
Proof.
  intros NE [Et Hlast] (x & y & Hpost).
  assert (length (pre ++ sep ++ x) <= length pre) as H.
  { apply (Hlast _ y). rewrite Et, Hpost. now rewrite <- !app_assoc. }
  rewrite !length_app in H. destruct sep; [congruence|]. simpl in H. lia.
Qed.

Lemma extract_tail_after sep t pre post :
  last_occurrence sep t pre post ->
  exists l r, t = l ++ py_strip post ++ r /\ whitespace r.
Proof.
  intros [Et _].
  destruct (py_strip_spec post) as [(l & r & Ep & _ & Wr) _].
  exists (pre ++ sep ++ l), r. split; [|exact Wr].
  rewrite Et. rewrite Ep at 1. now rewrite <- !app_assoc.
Qed.

Lemma strip_keeps_absence sep post : ~ occurs sep post -> ~ occurs sep (py_strip post).
Proof.
  intros H Ho. apply H.
  destruct (py_strip_spec post) as [(l & r & Ep & _) _].
  rewrite Ep. now apply occurs_inside.
Qed.

(** X18. What the extractor (lines 116-123) returns is always a piece of
    the decoded text: the end of it, less a run of whitespace at the very
    end.  And it never contains the marker [assistant] followed by a
    line feed. *)
Theorem extract_response_is_a_tail t :
  (exists l r, t = l ++ extract_response t ++ r /\ whitespace r) /\
  ~ occurs marker_nl (extract_response t).
Proof.
  unfold extract_response.
  destruct (py_in marker_nl t) eqn:E1.
  - apply py_in_occurs in E1.
    destruct (occurs_last_occurrence _ _ E1) as (pre & post & HL).
    rewrite (py_split_last _ _ marker_nl_border_free ltac:(discriminate) pre post HL).
    split; [now apply extract_tail_after with (sep := marker_nl) (pre := pre)|].
    apply strip_keeps_absence.
    now apply nothing_after_last_occurrence with (t := t) (pre := pre).
  - assert (N1 : ~ occurs marker_nl t).
    { intros H. apply py_in_occurs in H. congruence. }
    destruct (py_in marker t) eqn:E2.
    + apply py_in_occurs in E2.
      destruct (occurs_last_occurrence _ _ E2) as (pre & post & HL).
      rewrite (py_split_last _ _ marker_border_free ltac:(discriminate) pre post HL).
      split; [now apply extract_tail_after with (sep := marker) (pre := pre)|].
      apply strip_keeps_absence. intros H. apply N1.
      destruct HL as [-> _].
      replace (pre ++ marker ++ post) with ((pre ++ marker) ++ post ++ [])
        by (now rewrite app_nil_r, <- app_assoc).
      now apply occurs_inside.
    + split; [|exact N1]. exists [], []. split; [|constructor].
      now rewrite app_nil_r.
Qed.

(** X19. When the decoded text ends with the marker, or with the marker
    and whitespace only, the extracted reply is the empty string. *)
Theorem extract_empty_reply p w :
  whitespace w -> extract_response (p ++ marker_nl ++ w) = [].
Proof.
  intros W.
  assert (HL : last_occurrence marker_nl (p ++ marker_nl ++ w) p w).
  { split; [reflexivity|]. intros pre' post' E.
    destruct (le_lt_dec (length pre') (length p)) as [|Hlt]; [assumption|].
    exfalso.
    pose proof (no_overlap _ _ _ _ _ _ marker_nl_border_free eq_refl E Hlt) as Hfar.
    rewrite app_assoc in E.
    destruct (app_eq_app_le _ _ _ _ E) as [x [_ Hw]]; [now rewrite length_app|].
    rewrite Hw in W. apply Forall_app in W as [_ W].
    apply Forall_app in W as [W _]. apply Forall_inv in W. discriminate. }
  rewrite (extract_after_marker_nl _ _ _ HL). unfold py_strip.
  now rewrite (lstrip_whitespace w W).
Qed.

Lemma extract_empty_reply_witness :
  extract_response (lit "user" ++ [NL] ++ lit "Hi" ++ [NL] ++ marker_nl ++ lit "  " ++ [NL])
  = [].
Proof.
  apply (extract_empty_reply (lit "user" ++ [NL] ++ lit "Hi" ++ [NL]) (lit "  " ++ [NL])).
  repeat constructor.
Defined.

(** [sep.join(pieces)] *)
Fixpoint py_join (sep : pystr) (pieces : list pystr) : pystr :=
  match pieces with
  | [] => []
  | [x] => x
  | x :: rest => x ++ sep ++ py_join sep rest
  end.

(** X20. The split the extractor relies on (lines 119 and 121), which
    is by a separator that is not empty, loses nothing: joining the
    pieces with the separator gives the text back, and no piece contains
    the separator. *)
Theorem split_then_join sep t :
  sep <> [] ->
  py_join sep (py_split sep t) = t /\
  Forall (fun piece => ~ occurs sep piece) (py_split sep t).
Proof.
  funelim (py_split sep t); intros NE.
  - congruence.
  - match goal with IH : _ -> _ /\ _ |- _ => destruct (IH NE) as [Hj Hf] end.
    destruct (py_partition_some _ _ _ _ e) as [Et Hfirst].
    split.
    + cbn [py_join]. destruct (py_split (c :: s) b) as [|x xs] eqn:Es;
        [now apply py_split_not_nil in Es|].
      rewrite Hj. now rewrite Et.
    + constructor; [|exact Hf].
      intros (x & y & Ha).
      assert (length a <= length x) as Hle.
      { apply (Hfirst x (y ++ (c :: s) ++ b)). rewrite Et, Ha.
        now rewrite <- !app_assoc. }
      rewrite Ha, !length_app in Hle. simpl in Hle. lia.
  - split; [reflexivity|]. constructor; [|constructor].
    now apply py_partition_none.
Qed.

Lemma split_then_join_witness :
  py_join marker
          (py_split marker (lit "assistant: Hi, I am your assistant" ++ [NL] ++ lit "ok"))
  = lit "assistant: Hi, I am your assistant" ++ [NL] ++ lit "ok" /\
  Forall (fun piece => ~ occurs marker piece)
         (py_split marker (lit "assistant: Hi, I am your assistant" ++ [NL] ++ lit "ok")).
Proof.
  apply (split_then_join marker
           (lit "assistant: Hi, I am your assistant" ++ [NL] ++ lit "ok")).
  discriminate.
Defined.

(** [t.split(sep)] with the error of the empty separator; on the two
    markers of the extractor it is the split used above. *)
Definition str_split (sep t : pystr) : result (list pystr) :=
  match sep with
  | [] => Raise (Exn ValueError (lit "empty separator"))
  | _ :: _ => Ok (py_split sep t)
  end.

Lemma str_split_markers t :
  str_split marker_nl t = Ok (py_split marker_nl t) /\
  str_split marker t = Ok (py_split marker t).
Proof. split; reflexivity. Qed.

(** ** Loading, then generating *)

(** X21. After a [load_model] that went through, a [generate] command
    is not turned away: it runs [generate] on the server the load left,
    which holds a model and a tokenizer, and is answered with the text
    or with the message of the exception [generate] raised. *)
Theorem generate_after_load py b1 line1 d1 b2 line2 d2 self :
  parses_to py line1 (PDict d1) -> command_of d1 = PStr (lit "load_model") ->
  parses_to py line2 (PDict d2) -> command_of d2 = PStr (lit "generate") ->
  loads b1 = true ->
  let loaded := state_of (process_line py b1 line1 self) in
  (exists m tok, model loaded = Some m /\ tokenizer loaded = Some tok) /\
  process_line py b2 line2 loaded
  = (loaded,
     trace_of (generate_of py b2 d2 loaded)
       ++ [PrintJson match result_of (generate_of py b2 d2 loaded) with
                     | Ok text => success_response text
                     | Raise e => error_response (exn_msg e)
                     end],
     Ok Continue).
Proof.
  intros Hp1 Hc1 Hp2 Hc2 Hl loaded.
  assert (Hs : loaded = state_of (load_model b1 self)).
  { unfold loaded. now rewrite (process_line_load_model py b1 line1 d1 self Hp1 Hc1). }
  assert (Hm : model_loaded loaded = true).
  { rewrite Hs. apply load_model_success_loaded. now rewrite load_outcome_loads. }
  assert (Ht : exists tok, tokenizer loaded = Some tok).
  { rewrite Hs. clear - Hl. revert Hl. run_load_model; intros; try discriminate;
      eexists; reflexivity. }
  unfold model_loaded in Hm. destruct (model loaded) as [m|] eqn:Em; [|discriminate].
  split.
  - destruct Ht as [tok Ht]. now exists m, tok.
  - now apply process_line_generate with (h := m).
Qed.

Lemma generate_after_load_witness :
  let loaded :=
    state_of (process_line example_py backend_ok (line_command "load_model")
                           (init default_model_id true)) in
  (exists m tok, model loaded = Some m /\ tokenizer loaded = Some tok) /\
  process_line example_py backend_ok line_generate_hi loaded
  = (loaded,
     trace_of (generate_of example_py backend_ok
                 [(lit "command", PStr (lit "generate")); (lit "prompt", PStr (lit "Hi"))]
                 loaded)
       ++ [PrintJson
             match result_of (generate_of example_py backend_ok
                                [(lit "command", PStr (lit "generate"));
                                 (lit "prompt", PStr (lit "Hi"))] loaded) with
             | Ok text => success_response text
             | Raise e => error_response (exn_msg e)
             end],
     Ok Continue).
Proof.
  apply (generate_after_load example_py backend_ok (line_command "load_model")
           [(lit "command", PStr (lit "load_model"))] backend_ok line_generate_hi
           [(lit "command", PStr (lit "generate")); (lit "prompt", PStr (lit "Hi"))]
           (init default_model_id true)).
  - parse_example.
  - reflexivity.
  - parse_example.
  - reflexivity.
  - reflexivity.
Defined.

(** The whole exchange of this example, as the supervising process sees
    it. *)
Example load_then_generate_session :
  trace_of (main example_py default_model_id
              [(line_command "test", backend_ok);
               (line_command "load_model", backend_ok);
               (line_generate_hi, backend_ok);
               (line_command "shutdown", backend_ok)])
  = [PrintText (lit "READY");
     PrintJson (test_response false);
     CudaIsAvailable;
     TokenizerFromPretrained default_model_id true;
     ModelFromPretrained default_model_id Cpu true;
     ModelTo Cpu;
     PrintJson (status_response (lit "loaded"));
     ApplyChatTemplate
       [Message (lit "system") (PStr default_system_content);
        Message (lit "user") (PStr (lit "Hi"))];
     Tokenize (lit "user" ++ [NL] ++ lit "Hi" ++ [NL] ++ lit "assistant" ++ [NL]);
     InputsTo [1; 2; 3]%Z;
     ModelGenerate [1; 2; 3]%Z (PInt 128) (PFloat float_0_7) true;
     Decode [1; 2; 3; 4; 5]%Z;
     PrintJson (success_response (lit "Hello there"))].
Proof. vm_compute. reflexivity. Qed.
